(** * ConnectPair backend (server.js): request pipeline over an embedded store

    A shallow embedding of the Express handlers of [server.js]:
    validation -> persistence -> notification -> response.

    Conventions of the embedding.
    - A request body or query string is a JS object used as a map from field
      names to text values: [gmap string string]; an absent key is JS
      [undefined].  A text value is the sequence of bytes of its UTF-8
      encoding, which is also what is bound to a statement parameter.
    - A table is the list of its rows in rowid order together with the
      AUTOINCREMENT counter that SQLite keeps in [sqlite_sequence].
    - DATETIME values (CURRENT_TIMESTAMP, second resolution) are integers
      counting seconds; comparing them agrees with comparing the
      'YYYY-MM-DD HH:MM:SS' text that SQLite stores.
    - The outside world of one request is an [env]: the clock, whether the
      storage engine fails the statement, which mails the transport rejects,
      and the process environment variables.
    - Effects (store writes, mail attempts, console output) are threaded
      through a small state monad over [world].  The senders are called
      without [await]: the handler never sees their outcome, and the world
      records their effects in the order of the calls.
    - The [try]/[catch] around each handler body answers 500 'Internal
      server error' to a synchronous exception; none of the operations
      below throws one, so that branch has no counterpart here. *)

From Stdlib Require Import ZArith Ascii String List Lia Bool.
From stdpp Require Import base option list strings gmap sorting.

Local Open Scope string_scope.
Local Open Scope Z_scope.
Local Open Scope list_scope.

(** ** JavaScript helpers *)

Module Js.

(** A value read from a body or query object: [None] is [undefined]. *)
Definition value := option string.

(** express-validator's [toString]: [undefined] becomes the empty string. *)
Definition toString (v : value) : string :=
  match v with
  | Some s => s
  | None => ""
  end.

(** Truthiness of a text-or-undefined value: only [undefined] and [''] are
    falsy. *)
Definition truthy (v : value) : bool :=
  match v with
  | Some s => negb (String.eqb s "")
  | None => false
  end.

(** [v || d] *)
Definition or_else (v d : value) : value :=
  if truthy v then v else d.

(** [const { k = d } = obj]: the default applies to [undefined] only. *)
Definition with_default (v : value) (d : string) : string :=
  match v with
  | Some s => s
  | None => d
  end.

(** The white space [parseInt] skips, among single-byte characters. *)
Definition is_whitespace (c : ascii) : bool :=
  let n := N_of_ascii c in
  (N.eqb n 32 || (N.leb 9 n && N.leb n 13))%N.

Definition byte (c : ascii) : Z := Z.of_N (N_of_ascii c).

(** U+00A0, in UTF-8. *)
Definition is_whitespace2 (c1 c2 : ascii) : bool :=
  (byte c1 =? 194) && (byte c2 =? 160).

(** U+1680, U+2000 to U+200A, U+2028, U+2029, U+202F, U+205F, U+3000 and
    U+FEFF, in UTF-8. *)
Definition is_whitespace3 (c1 c2 c3 : ascii) : bool :=
  let '(b1, b2, b3) := (byte c1, byte c2, byte c3) in
  ((b1 =? 225) && (b2 =? 154) && (b3 =? 128)) ||
  ((b1 =? 226) && (b2 =? 128) &&
   (((128 <=? b3) && (b3 <=? 138)) || (b3 =? 168) || (b3 =? 169) ||
    (b3 =? 175))) ||
  ((b1 =? 226) && (b2 =? 129) && (b3 =? 159)) ||
  ((b1 =? 227) && (b2 =? 128) && (b3 =? 128)) ||
  ((b1 =? 239) && (b2 =? 187) && (b3 =? 191)).

(** Leading white space and line terminators are dropped. *)
Fixpoint trim_start (s : string) : string :=
  match s with
  | String c1 s1 =>
      if is_whitespace c1 then trim_start s1
      else
        match s1 with
        | String c2 s2 =>
            if is_whitespace2 c1 c2 then trim_start s2
            else
              match s2 with
              | String c3 s3 =>
                  if is_whitespace3 c1 c2 c3 then trim_start s3 else s
              | EmptyString => s
              end
        | EmptyString => s
        end
  | EmptyString => s
  end.

Definition digit_value (c : ascii) : option Z :=
  let n := Z.of_N (N_of_ascii c) in
  if (48 <=? n) && (n <=? 57) then Some (n - 48)
  else if (97 <=? n) && (n <=? 122) then Some (n - 87)
  else if (65 <=? n) && (n <=? 90) then Some (n - 55)
  else None.

(** Longest prefix of digits in the radix; [None] when there is none. *)
Fixpoint read_digits (radix : Z) (s : string) (acc : option Z) : option Z :=
  match s with
  | String c s' =>
      match digit_value c with
      | Some d =>
          if d <? radix
          then read_digits radix s' (Some (default 0 acc * radix + d))
          else acc
      | None => acc
      end
  | EmptyString => acc
  end.

Definition strip_sign (s : string) : Z * string :=
  match s with
  | String "-" s' => (-1, s')
  | String "+" s' => (1, s')
  | _ => (1, s)
  end.

(** The numbers [parseInt] can return: [NaN], an infinity, or a double
    whose value is the integer [z]. *)
Inductive number : Type :=
| NaN
| Num (z : Z)
| Infinity (negative : bool).

(** The double nearest to the integer [m >= 0], ties to the even
    significand; [None] when it is too large for a finite double. *)
Definition round_to_double (m : Z) : option Z :=
  if m <? 9007199254740992 then Some m
  else
    let e := Z.log2 m - 52 in
    let q := Z.shiftr m e in
    let r := Z.land m (Z.ones e) in
    let half := Z.shiftl 1 (e - 1) in
    let q' := if (half <? r) || ((r =? half) && Z.odd q) then q + 1 else q in
    let d := Z.shiftl q' e in
    if d <? Z.shiftl 1 1024 then Some d else None.

(** [parseInt(s)] with no radix argument. *)
Definition parseInt (s : string) : number :=
  let '(sign, body) := strip_sign (trim_start s) in
  let digits :=
    match body with
    | String "0" (String "x" s') => read_digits 16 s' None
    | String "0" (String "X" s') => read_digits 16 s' None
    | _ => read_digits 10 body None
    end in
  match digits with
  | None => NaN
  | Some m =>
      match round_to_double m with
      | Some d => Num (sign * d)
      | None => Infinity (sign <? 0)
      end
  end.

End Js.

(** ** The pieces of SQL the statements use *)

Module Sql.

Inductive result (A : Type) : Type :=
| Ok (a : A)
| Error (message : string).
Arguments Ok {A} a.
Arguments Error {A} message.

(** A table with [id INTEGER PRIMARY KEY AUTOINCREMENT]. *)
Record table (R : Type) : Type := Table {
  rows : list R;
  seq : Z
}.
Arguments Table {R} rows seq.
Arguments rows {R} t.
Arguments seq {R} t.

Definition empty_table {R : Type} : table R := Table [] 0.

Definition max_rowid (ids : list Z) : Z := foldr Z.max 0 ids.

(** The rowid an AUTOINCREMENT table hands out: one more than the largest
    rowid it ever held. *)
Definition next_rowid {R : Type} (rowid : R -> Z) (t : table R) : Z :=
  Z.max (seq t) (max_rowid (map rowid (rows t))) + 1.

(** [=] on a nullable TEXT column against a text parameter (BINARY
    collation); NULL equals nothing. *)
Definition text_eq (column : option string) (param : string) : bool :=
  match column with
  | Some s => String.eqb s param
  | None => false
  end.

(** LIKE folds the case of the 26 ASCII letters only. *)
Definition fold_case (c : ascii) : ascii :=
  let n := N_of_ascii c in
  if (N.leb 65 n && N.leb n 90)%N then ascii_of_N (n + 32) else c.

(** The same fold on character codes. *)
Definition fold_code (c : Z) : Z :=
  if (65 <=? c) && (c <=? 90) then c + 32 else c.

(** LIKE reads its operands as C strings: up to the first NUL. *)
Fixpoint c_string (s : string) : string :=
  match s with
  | String c s' =>
      if Js.byte c =? 0 then EmptyString else String c (c_string s')
  | EmptyString => EmptyString
  end.

(** The value a lead byte [192..255] starts a character with. *)
Definition utf8_lead (b : Z) : Z :=
  if b <? 224 then b - 192
  else if b <? 240 then b - 224
  else if b <? 248 then b - 240
  else if b <? 252 then b - 248
  else if b <? 254 then b - 252
  else 0.

Definition is_continuation (b : Z) : bool := Z.land b 192 =? 128.

(** One more continuation byte, in 32-bit unsigned arithmetic. *)
Definition utf8_shift (c b : Z) : Z :=
  (c * 64 + Z.land b 63) mod 4294967296.

(** Codes below 128 from a multi-byte form, surrogates and U+FFFE/U+FFFF
    are read as U+FFFD. *)
Definition utf8_fix (c : Z) : Z :=
  if (c <? 128) || (Z.land c 4294965248 =? 55296) ||
     (Z.land c 4294967294 =? 65534)
  then 65533 else c.

(** The characters LIKE reads from a C string, as the engine's UTF-8
    reader does: a byte below 192 is a character of its own; a lead byte
    takes every continuation byte that follows.  [pending] is the
    character being read. *)
Fixpoint utf8_decode (pending : option Z) (s : string) : list Z :=
  match s with
  | String b s' =>
      let n := Js.byte b in
      let start :=
        if 192 <=? n then utf8_decode (Some (utf8_lead n)) s'
        else n :: utf8_decode None s' in
      match pending with
      | Some c =>
          if is_continuation n then utf8_decode (Some (utf8_shift c n)) s'
          else utf8_fix c :: start
      | None => start
      end
  | EmptyString =>
      match pending with
      | Some c => [utf8_fix c]
      | None => []
      end
  end.

Definition char_eq_nocase (c d : Z) : bool :=
  (c =? d) || ((c <? 128) && (d <? 128) && (fold_code c =? fold_code d)).

(** The pattern matcher of LIKE without ESCAPE, on characters: [%] (37)
    matches any run of characters, [_] (95) any single one, everything
    else itself, ASCII letters without regard to case. *)
Fixpoint pattern_compare (pattern text : list Z) : bool :=
  match pattern with
  | [] =>
      match text with
      | [] => true
      | _ :: _ => false
      end
  | c :: p' =>
      if c =? 37 then
        (fix any_suffix (t : list Z) : bool :=
           pattern_compare p' t ||
           match t with
           | _ :: t' => any_suffix t'
           | [] => false
           end) text
      else if c =? 95 then
        match text with
        | _ :: t' => pattern_compare p' t'
        | [] => false
        end
      else
        match text with
        | d :: t' => char_eq_nocase c d && pattern_compare p' t'
        | [] => false
        end
  end.

(** [text LIKE pattern] *)
Definition like (pattern text : string) : bool :=
  pattern_compare (utf8_decode None (c_string pattern))
                  (utf8_decode None (c_string text)).

(** A value in a column of NUMERIC affinity (declared DATE here): text
    that is a well-formed number is stored as that number, any other text
    as it is.  [Numeric literal] stands for the number the literal
    denotes. *)
Inductive value : Type :=
| Text (s : string)
| Numeric (literal : string).

Definition is_space (c : ascii) : bool :=
  let n := Js.byte c in (n =? 32) || ((9 <=? n) && (n <=? 13)).

Definition is_digit (c : ascii) : bool :=
  let n := Js.byte c in (48 <=? n) && (n <=? 57).

Fixpoint skip_spaces (s : string) : string :=
  match s with
  | String c s' => if is_space c then skip_spaces s' else s
  | EmptyString => s
  end.

(** Whether a digit was read, and what follows the digits. *)
Fixpoint skip_digits (seen : bool) (s : string) : bool * string :=
  match s with
  | String c s' => if is_digit c then skip_digits true s' else (seen, s)
  | EmptyString => (seen, s)
  end.

Definition skip_a_sign (s : string) : string :=
  match s with
  | String "+" s' => s'
  | String "-" s' => s'
  | _ => s
  end.

(** After the mantissa: nothing, or an exponent with at least one digit;
    then only white space. *)
Definition ends_numeric (s : string) : bool :=
  let after :=
    match s with
    | String "e" s' => skip_digits false (skip_a_sign s')
    | String "E" s' => skip_digits false (skip_a_sign s')
    | _ => (true, s)
    end in
  fst after &&
  match skip_spaces (snd after) with
  | EmptyString => true
  | String _ _ => false
  end.

(** A well-formed integer or real literal, white space around it
    allowed; hexadecimal does not count. *)
Definition looks_numeric (s : string) : bool :=
  let '(seen, s1) := skip_digits false (skip_a_sign (skip_spaces s)) in
  match s1 with
  | String "." s2 =>
      let '(seen', s3) := skip_digits seen s2 in
      seen' && ends_numeric s3
  | _ => seen && ends_numeric s1
  end.

Definition numeric_affinity (s : string) : value :=
  if looks_numeric s then Numeric s else Text s.

(** The first [n] rows, and the rows after them. *)
Fixpoint take_rows {R : Type} (n : Z) (l : list R) : list R :=
  match l with
  | [] => []
  | x :: l' => if 0 <? n then x :: take_rows (n - 1) l' else []
  end.

Fixpoint drop_rows {R : Type} (n : Z) (l : list R) : list R :=
  match l with
  | [] => []
  | x :: l' => if 0 <? n then drop_rows (n - 1) l' else l
  end.

(** [LIMIT n]: a negative bound means no bound. *)
Definition limit {R : Type} (n : Z) (l : list R) : list R :=
  if n <? 0 then l else take_rows n l.

(** [OFFSET n]: a negative offset counts as zero. *)
Definition offset {R : Type} (n : Z) (l : list R) : list R :=
  drop_rows n l.

(** The integer a LIMIT or OFFSET parameter stands for.  A number bound
    from JS arrives as a 32-bit integer or as a double; the engine takes a
    double that is a whole number strictly between -2^63 and 2^63, and
    rejects everything else ([NaN] is bound as NULL). *)
Definition bind_integer (n : Js.number) : option Z :=
  match n with
  | Js.Num z =>
      if (-9223372036854775808 <? z) && (z <? 9223372036854775808)
      then Some z else None
  | _ => None
  end.

(** [LIMIT ?] with a bound parameter. *)
Definition limit_param {R : Type} (lim : Js.number) (l : list R)
  : result (list R) :=
  match bind_integer lim with
  | Some n => Ok (limit n l)
  | None => Error "SQLITE_MISMATCH: datatype mismatch"
  end.

(** [LIMIT ? OFFSET ?] with bound parameters. *)
Definition limit_offset {R : Type} (lim off : Js.number) (l : list R)
  : result (list R) :=
  match bind_integer lim, bind_integer off with
  | Some n, Some k => Ok (limit n (offset k l))
  | _, _ => Error "SQLITE_MISMATCH: datatype mismatch"
  end.

(** Stable insertion into a list sorted by descending key: [x] comes from
    earlier in the scan than everything in [l], so it goes before equal
    keys. *)
Fixpoint insert_desc {R : Type} (key : R -> Z) (x : R) (l : list R) : list R :=
  match l with
  | [] => [x]
  | y :: l' =>
      if key y <=? key x then x :: l else y :: insert_desc key x l'
  end.

(** [ORDER BY key DESC] under a LIMIT, for a table that is scanned in
    rowid order, as [consultations] is with the schema above (it has no
    index on [created_at]): rows with equal keys then keep their scan
    order.  The statement itself names no order among equal keys. *)
Definition order_by_desc {R : Type} (key : R -> Z) (l : list R) : list R :=
  foldr (insert_desc key) [] l.

End Sql.

(** ** Data model: the five tables of [initializeDatabase] *)

(** [consultations].  The NOT NULL text columns are [string]; nullable
    columns are [option].  [anniversary] is declared DATE, which gives the
    column NUMERIC affinity. *)
Record consultation : Type := Consultation {
  c_id : Z;
  c_relationship_type : string;
  c_names : string;
  c_email : string;
  c_phone : string;
  c_anniversary : option Sql.value;
  c_preferences : option string;
  c_budget : string;
  c_status : option string;
  c_created_at : Z;
  c_updated_at : Z
}.

Record customer : Type := Customer {
  cu_id : Z;
  cu_email : string;
  cu_name : string;
  cu_phone : option string;
  cu_relationship_type : option string;
  cu_anniversary : option Sql.value;
  cu_partner_email : option string;
  cu_created_at : Z;
  cu_updated_at : Z
}.

(** [phone_numbers]; the DECIMAL(10,2) prices are counted in hundredths. *)
Record phone_number : Type := PhoneNumber {
  p_id : Z;
  p_number : string;
  p_pattern_type : option string;
  p_customer_id : option Z;
  p_partner_number_id : option Z;
  p_status : option string;
  p_purchase_price : option Z;
  p_monthly_fee : option Z;
  p_created_at : Z
}.

Record order : Type := Order {
  o_id : Z;
  o_customer_id : Z;
  o_package_type : string;
  o_total_amount : Z;
  o_status : option string;
  o_payment_intent_id : option string;
  o_numbers : option string;
  o_created_at : Z
}.

Record email_subscriber : Type := EmailSubscriber {
  s_id : Z;
  s_email : string;
  s_source : option string;
  s_status : option string;
  s_created_at : Z
}.

Record database : Type := Database {
  consultations : Sql.table consultation;
  customers : Sql.table customer;
  phone_numbers : Sql.table phone_number;
  orders : Sql.table order;
  email_subscribers : Sql.table email_subscriber;
  last_insert_rowid : Z
}.

(** The store right after [initializeDatabase] on a fresh file. *)
Definition initializeDatabase : database :=
  Database Sql.empty_table Sql.empty_table Sql.empty_table
           Sql.empty_table Sql.empty_table 0.

(** What the schema keeps true of a table with an AUTOINCREMENT key: rows
    lie in increasing rowid order, and the counter is non-negative and not
    below any rowid. *)
Definition wf_table {R : Type} (rowid : R -> Z) (t : Sql.table R) : Prop :=
  StronglySorted Z.lt (map rowid (Sql.rows t)) /\
  0 <= Sql.seq t /\
  Forall (fun i => i <= Sql.seq t) (map rowid (Sql.rows t)).

(** Schema constraints of the tables the handlers write:
    primary keys, and [email TEXT UNIQUE] on [email_subscribers]. *)
Definition wf_database (db : database) : Prop :=
  wf_table c_id (consultations db) /\
  wf_table s_id (email_subscribers db) /\
  NoDup (map s_email (Sql.rows (email_subscribers db))).

(** ** Mail and console *)

(** The data a message template is filled with. *)
Record consultationData : Type := ConsultationData {
  consultationId : Z;
  cd_relationshipType : Js.value;
  cd_names : Js.value;
  cd_email : Js.value;
  cd_phone : Js.value;
  cd_budget : Js.value;
  cd_preferences : Js.value
}.

(** The three templates; subject and HTML are rendered from these data. *)
Inductive template : Type :=
| ConfirmationTemplate (names : Js.value) (consultationId : Z)
| AdminAlertTemplate (data : consultationData)
| WelcomeTemplate.

Record mailOptions : Type := MailOptions {
  m_from : string;
  m_to : Js.value;
  m_template : template
}.

Inductive console_line : Type :=
| ConsoleLog (text : string)
| ConsoleError (text : string).

Definition is_console_error (l : console_line) : bool :=
  match l with
  | ConsoleError _ => true
  | ConsoleLog _ => false
  end.

(** ** Environment, world and the handler monad *)

Record process_env : Type := ProcessEnv {
  SMTP_FROM : Js.value;
  ADMIN_EMAIL : Js.value
}.

Record env : Type := Env {
  now : Z;
  db_fault : bool;
  smtp_fault : mailOptions -> bool;
  process_env_of : process_env
}.

Record world : Type := World {
  w_db : database;
  w_outbox : list mailOptions;
  w_console : list console_line
}.

Definition handler (A : Type) : Type := env -> world -> A * world.

Definition ret {A : Type} (a : A) : handler A := fun _ w => (a, w).

Definition bind {A B : Type} (m : handler A) (k : A -> handler B) : handler B :=
  fun e w => let '(a, w') := m e w in k a e w'.

Declare Scope handler_scope.
Delimit Scope handler_scope with handler.
Notation "x <- m ;; k" := (bind m (fun x => k))
  (at level 100, m at next level, right associativity) : handler_scope.
Notation "m ;; k" := (bind m (fun _ => k))
  (at level 100, right associativity) : handler_scope.

Definition ask : handler env := fun e w => (e, w).

Definition console_log (text : string) : handler unit :=
  fun _ w => (tt, World (w_db w) (w_outbox w) (w_console w ++ [ConsoleLog text])).

Definition console_error (text : string) : handler unit :=
  fun _ w => (tt, World (w_db w) (w_outbox w) (w_console w ++ [ConsoleError text])).

(** [await transporter.sendMail(options)]: the attempt is recorded; [true]
    when the transport accepted the message, [false] when it threw. *)
Definition sendMail (options : mailOptions) : handler bool :=
  fun e w =>
    (negb (smtp_fault e options),
     World (w_db w) (w_outbox w ++ [options]) (w_console w)).

(** [db.run(sql, params, callback)]: the statement either fails as a whole
    (engine fault or constraint violation) and leaves the store as it was,
    or commits; the callback then finds the connection's last inserted
    rowid in [this.lastID]. *)
Definition db_run (stmt : Z -> database -> Sql.result database)
  : handler (Sql.result Z) :=
  fun e w =>
    if db_fault e then (Sql.Error "SQLITE_ERROR", w)
    else
      match stmt (now e) (w_db w) with
      | Sql.Ok db' =>
          (Sql.Ok (last_insert_rowid db'),
           World db' (w_outbox w) (w_console w))
      | Sql.Error message => (Sql.Error message, w)
      end.

(** [db.all(sql, params, callback)]: a read; the store is not changed. *)
Definition db_all {R : Type} (query : database -> Sql.result (list R))
  : handler (Sql.result (list R)) :=
  fun e w =>
    if db_fault e then (Sql.Error "SQLITE_ERROR", w)
    else (query (w_db w), w).

(** [INSERT INTO consultations (relationship_type, names, email, phone,
    anniversary, preferences, budget) VALUES (?, ?, ?, ?, ?, ?, ?)].
    An [undefined] parameter is bound as NULL.  [status], [created_at] and
    [updated_at] take their column defaults. *)
Definition insert_consultation
    (relationship_type names email phone anniversary preferences budget : Js.value)
    (current_timestamp : Z) (db : database) : Sql.result database :=
  match relationship_type, names, email, phone, budget with
  | Some rt, Some n, Some e, Some p, Some b =>
      let id := Sql.next_rowid c_id (consultations db) in
      let row :=
        Consultation id rt n e p (Sql.numeric_affinity <$> anniversary)
                     preferences b
                     (Some "pending") current_timestamp current_timestamp in
      Sql.Ok (Database (Sql.Table (Sql.rows (consultations db) ++ [row]) id)
                       (customers db) (phone_numbers db) (orders db)
                       (email_subscribers db) id)
  | _, _, _, _, _ => Sql.Error "SQLITE_CONSTRAINT: NOT NULL constraint failed"
  end.

Definition has_email (email : string) (s : email_subscriber) : bool :=
  String.eqb (s_email s) email.

(** [INSERT OR IGNORE INTO email_subscribers (email, source) VALUES (?, ?)].
    A row that would break NOT NULL or UNIQUE on [email] is skipped without
    an error; the rowid drawn for it is still recorded in the counter. *)
Definition insert_or_ignore_subscriber (email source : Js.value)
    (current_timestamp : Z) (db : database) : Sql.result database :=
  let t := email_subscribers db in
  let id := Sql.next_rowid s_id t in
  let ignored :=
    Database (consultations db) (customers db) (phone_numbers db)
             (orders db) (Sql.Table (Sql.rows t) id) (last_insert_rowid db) in
  match email with
  | Some e =>
      if existsb (has_email e) (Sql.rows t) then Sql.Ok ignored
      else
        let row := EmailSubscriber id e source (Some "active") current_timestamp in
        Sql.Ok (Database (consultations db) (customers db) (phone_numbers db)
                         (orders db) (Sql.Table (Sql.rows t ++ [row]) id) id)
  | None => Sql.Ok ignored
  end.

(** The WHERE clause is grown by [query += ' AND ...']: a conjunction. *)
Definition where_all {R : Type} (conditions : list (R -> bool)) (r : R) : bool :=
  forallb (fun c => c r) conditions.

(** [SELECT * FROM phone_numbers WHERE status = 'available'
    [AND pattern_type = ?] [AND number LIKE ?] LIMIT ?] *)
Definition select_phone_numbers (conditions : list (phone_number -> bool))
    (lim : Js.number) (db : database) : Sql.result (list phone_number) :=
  Sql.limit_param lim
    (List.filter (where_all conditions) (Sql.rows (phone_numbers db))).

(** [SELECT * FROM consultations [WHERE status = ?]
    ORDER BY created_at DESC LIMIT ? OFFSET ?] *)
Definition select_consultations (conditions : list (consultation -> bool))
    (lim off : Js.number) (db : database) : Sql.result (list consultation) :=
  Sql.limit_offset lim off
    (Sql.order_by_desc c_created_at
       (List.filter (where_all conditions) (Sql.rows (consultations db)))).

(** ** Validation (express-validator) *)

Record validation_error : Type := ValidationError {
  ve_value : Js.value;
  ve_msg : string;
  ve_path : string;
  ve_location : string
}.

(** [body(path).<validator>().withMessage(message)] *)
Record validation_chain : Type := Body {
  vc_path : string;
  vc_validator : string -> bool;
  vc_message : string
}.

Definition notEmpty (s : string) : bool := negb (String.eqb s "").

(** Standard validators see the field through [toString]. *)
Definition run_chain (req_body : gmap string string) (c : validation_chain)
  : list validation_error :=
  let v := req_body !! vc_path c in
  if vc_validator c (Js.toString v) then []
  else [ValidationError v (vc_message c) (vc_path c) "body"].

(** [validationResult(req).array()]: the errors of all chains, in chain
    order. *)
Definition validationResult (chains : list validation_chain)
    (req_body : gmap string string) : list validation_error :=
  flat_map (run_chain req_body) chains.

(** ** Responses *)

Inductive response_body : Type :=
| ValidationErrors (errors : list validation_error)
| Failure (message : string)
| ConsultationSubmitted (message : string) (consultationId : Z)
| Subscribed (message : string)
| Numbers (numbers : list phone_number)
| Consultations (rows : list consultation).

Record response : Type := Response {
  status : Z;
  json : response_body
}.

(** The [success] member of the JSON body. *)
Definition success (r : response) : bool :=
  match json r with
  | ValidationErrors _ | Failure _ => false
  | _ => true
  end.

(** A stand-in for validator.js's [isEmail] to run the handlers on
    examples: some text, an [@], some text with a dot inside. *)
Fixpoint has_inner_dot (s : string) : bool :=
  match s with
  | String _ (String "." (String _ _)) => true
  | String _ s' => has_inner_dot s'
  | EmptyString => false
  end.

Fixpoint at_then_domain (s : string) : bool :=
  match s with
  | String "@" s' => has_inner_dot s'
  | String _ s' => at_then_domain s'
  | EmptyString => false
  end.

Definition simple_isEmail (s : string) : bool :=
  match s with
  | String "@" _ => false
  | _ => at_then_domain s
  end.

(** ** The handlers *)

Section Server.

(** validator.js's [isEmail] is an external collaborator. *)
Variable isEmail : string -> bool.

Local Open Scope handler_scope.

Definition consultationValidation : list validation_chain :=
  [ Body "relationshipType" notEmpty "Relationship type is required";
    Body "names" notEmpty "Names are required";
    Body "email" isEmail "Valid email is required";
    Body "phone" notEmpty "Phone number is required";
    Body "budget" notEmpty "Budget selection is required" ].

Definition newsletterValidation : list validation_chain :=
  [ Body "email" isEmail "Valid email is required" ].

(** [process.env.SMTP_FROM || 'hello@connectpair.co.uk'] *)
Definition from_address (e : env) : string :=
  Js.toString (Js.or_else (SMTP_FROM (process_env_of e))
                          (Some "hello@connectpair.co.uk")).

(** [process.env.ADMIN_EMAIL || 'admin@connectpair.co.uk'] *)
Definition admin_address (e : env) : Js.value :=
  Js.or_else (ADMIN_EMAIL (process_env_of e)) (Some "admin@connectpair.co.uk").

(** The [mailOptions] objects the three senders build. *)
Definition confirmation_mailOptions (e : env) (email names : Js.value)
    (consultationId : Z) : mailOptions :=
  MailOptions (from_address e) email (ConfirmationTemplate names consultationId).

Definition admin_mailOptions (e : env) (data : consultationData) : mailOptions :=
  MailOptions (from_address e) (admin_address e) (AdminAlertTemplate data).

Definition welcome_mailOptions (e : env) (email : Js.value) : mailOptions :=
  MailOptions (from_address e) email WelcomeTemplate.

(** [try { await transporter.sendMail(mailOptions); console.log(...) }
    catch (error) { console.error(...) }]: nothing escapes the sender. *)
Definition try_send (mailOptions : mailOptions) (sent_text error_text : string)
  : handler unit :=
  sent <- sendMail mailOptions ;;
  if sent then console_log sent_text else console_error error_text.

Definition sendConsultationConfirmation (email names : Js.value)
    (consultationId : Z) : handler unit :=
  e <- ask ;;
  try_send (confirmation_mailOptions e email names consultationId)
           "Confirmation email sent to:"
           "Error sending confirmation email:".

Definition sendAdminNotification (data : consultationData) : handler unit :=
  e <- ask ;;
  try_send (admin_mailOptions e data)
           "Admin notification sent for consultation:"
           "Error sending admin notification:".

Definition sendWelcomeEmail (email : Js.value) : handler unit :=
  e <- ask ;;
  try_send (welcome_mailOptions e email)
           "Welcome email sent to:"
           "Error sending welcome email:".

(** [app.post('/api/consultation', consultationValidation, ...)] *)
Definition post_api_consultation (req_body : gmap string string)
  : handler response :=
  let errors := validationResult consultationValidation req_body in
  match errors with
  | _ :: _ => ret (Response 400 (ValidationErrors errors))
  | [] =>
      let relationshipType := req_body !! "relationshipType" in
      let names := req_body !! "names" in
      let email := req_body !! "email" in
      let phone := req_body !! "phone" in
      let anniversary := req_body !! "anniversary" in
      let preferences := req_body !! "preferences" in
      let budget := req_body !! "budget" in
      r <- db_run (insert_consultation relationshipType names email phone
                     (Js.or_else anniversary None)
                     (Js.or_else preferences (Some ""))
                     budget) ;;
      match r with
      | Sql.Error _ =>
          console_error "Database error:" ;;
          ret (Response 500 (Failure "Database error"))
      | Sql.Ok lastID =>
          let consultationId := lastID in
          sendConsultationConfirmation email names consultationId ;;
          sendAdminNotification
            (ConsultationData consultationId relationshipType names email
                              phone budget preferences) ;;
          ret (Response 200
                 (ConsultationSubmitted
                    "Consultation request submitted successfully"
                    consultationId))
      end
  end.

(** [app.get('/api/numbers/search', ...)] *)
Definition get_api_numbers_search (req_query : gmap string string)
  : handler response :=
  let pattern := req_query !! "pattern" in
  let area_code := req_query !! "area_code" in
  let limit := Js.with_default (req_query !! "limit") "10" in
  let query := [fun r => Sql.text_eq (p_status r) "available"] in
  let query :=
    if Js.truthy pattern
    then (query ++
          [fun r => Sql.text_eq (p_pattern_type r) (Js.toString pattern)])%list
    else query in
  let query :=
    if Js.truthy area_code
    then (query ++
          [fun r => Sql.like (Js.toString area_code +:+ "%") (p_number r)])%list
    else query in
  r <- db_all (select_phone_numbers query (Js.parseInt limit)) ;;
  match r with
  | Sql.Error _ =>
      console_error "Database error:" ;;
      ret (Response 500 (Failure "Database error"))
  | Sql.Ok rows => ret (Response 200 (Numbers rows))
  end.

(** [app.post('/api/newsletter', [body('email').isEmail()...], ...)] *)
Definition post_api_newsletter (req_body : gmap string string)
  : handler response :=
  let errors := validationResult newsletterValidation req_body in
  match errors with
  | _ :: _ => ret (Response 400 (ValidationErrors errors))
  | [] =>
      let email := req_body !! "email" in
      let source := Js.with_default (req_body !! "source") "newsletter" in
      r <- db_run (insert_or_ignore_subscriber email (Some source)) ;;
      match r with
      | Sql.Error _ =>
          console_error "Newsletter subscription error:" ;;
          ret (Response 500 (Failure "Database error"))
      | Sql.Ok _ =>
          sendWelcomeEmail email ;;
          ret (Response 200 (Subscribed "Successfully subscribed to newsletter"))
      end
  end.

(** [app.get('/api/admin/consultations', ...)] *)
Definition get_api_admin_consultations (req_query : gmap string string)
  : handler response :=
  let status := req_query !! "status" in
  let limit := Js.with_default (req_query !! "limit") "50" in
  let offset := Js.with_default (req_query !! "offset") "0" in
  let query :=
    if Js.truthy status
    then [fun r => Sql.text_eq (c_status r) (Js.toString status)]
    else [] in
  r <- db_all (select_consultations query (Js.parseInt limit)
                 (Js.parseInt offset)) ;;
  match r with
  | Sql.Error _ =>
      console_error "Database error:" ;;
      ret (Response 500 (Failure "Database error"))
  | Sql.Ok rows => ret (Response 200 (Consultations rows))
  end.

End Server.

(** ** Vocabulary of the properties *)

(** The fields the consultation form requires. *)
Definition required_fields : list string :=
  ["relationshipType"; "names"; "email"; "phone"; "budget"].

(** The fields the consultation handler destructures from the body. *)
Definition submitted_fields : list string :=
  ["relationshipType"; "names"; "email"; "phone"; "anniversary";
   "preferences"; "budget"].

(** The rows a listing response carries (none on a failure). *)
Definition numbers_of (r : response) : list phone_number :=
  match json r with
  | Numbers l => l
  | _ => []
  end.

Definition console_errors (w : world) : list console_line :=
  List.filter is_console_error (w_console w).

(** The same outside world, with another behaviour of the mail transport. *)
Definition with_smtp_fault (e : env) (f : mailOptions -> bool) : env :=
  Env (now e) (db_fault e) f (process_env_of e).

Definition is_wildcard (c : ascii) : bool :=
  Ascii.eqb c "%" || Ascii.eqb c "_".

(** A character LIKE compares as it stands: ASCII, not NUL, no
    wildcard. *)
Definition literal_char (c : ascii) : bool :=
  (0 <? Js.byte c) && (Js.byte c <? 128) && negb (is_wildcard c).

Fixpoint ascii_literal (s : string) : bool :=
  match s with
  | String c s' => literal_char c && ascii_literal s'
  | EmptyString => true
  end.

Fixpoint fold_string (s : string) : string :=
  match s with
  | String c s' => String (Sql.fold_case c) (fold_string s')
  | EmptyString => EmptyString
  end.

(** What the console shows for one attempted mail. *)
Definition outcome_line (e : env) (m : mailOptions) (sent_text error_text : string)
  : console_line :=
  if smtp_fault e m then ConsoleError error_text else ConsoleLog sent_text.

(** The row a submission with the five required fields inserts. *)
Definition submitted_row (id : Z) (rt n em p : string)
    (req_body : gmap string string) (b : string) (t : Z) : consultation :=
  Consultation id rt n em p
    (Sql.numeric_affinity <$> Js.or_else (req_body !! "anniversary") None)
    (Js.or_else (req_body !! "preferences") (Some ""))
    b (Some "pending") t t.

(** The data handed to the admin alert for a stored consultation. *)
Definition alert_data (id : Z) (req_body : gmap string string) : consultationData :=
  ConsultationData id (req_body !! "relationshipType") (req_body !! "names")
                   (req_body !! "email") (req_body !! "phone")
                   (req_body !! "budget") (req_body !! "preferences").

(** The conditions the number search ends up with in its WHERE clause. *)
Definition search_conditions (req_query : gmap string string)
  : list (phone_number -> bool) :=
  let pattern := req_query !! "pattern" in
  let area_code := req_query !! "area_code" in
  [fun r => Sql.text_eq (p_status r) "available"] ++
  (if Js.truthy pattern
   then [fun r => Sql.text_eq (p_pattern_type r) (Js.toString pattern)]
   else []) ++
  (if Js.truthy area_code
   then [fun r => Sql.like (Js.toString area_code +:+ "%") (p_number r)]
   else []).

(** ** Sample requests *)

Definition quiet_env (t : Z) : env :=
  Env t false (fun _ => false) (ProcessEnv None None).

Definition fresh_world : world := World initializeDatabase [] [].

Definition alice_and_bob : gmap string string :=
  <["relationshipType" := "couple"]>
    (<["names" := "Alice & Bob"]>
       (<["email" := "a@example.com"]>
          (<["phone" := "555-0100"]>
             (<["budget" := "premium"]> ∅)))).

Definition carol_and_dan : gmap string string :=
  <["relationshipType" := "friends"]>
    (<["names" := "Carol & Dan"]>
       (<["email" := "c@example.com"]>
          (<["phone" := "555-0101"]>
             (<["budget" := "basic"]> ∅)))).

Definition newsletter_signup : gmap string string :=
  <["email" := "a@example.com"]> ∅.

Definition first_page : gmap string string :=
  <["limit" := "1"]> (<["offset" := "0"]> ∅).

Definition sample_number (id : Z) (number : string) : phone_number :=
  PhoneNumber id number None None None (Some "available") None None 0.

Definition numbers_world (numbers : list phone_number) : world :=
  World
    (Database Sql.empty_table Sql.empty_table
              (Sql.Table numbers (Sql.max_rowid (map p_id numbers)))
              Sql.empty_table Sql.empty_table 0)
    [] [].

(** A transport that rejects every mail, and a store that fails every
    statement. *)
Definition rejecting_transport_env (t : Z) : env :=
  Env t false (fun _ => true) (ProcessEnv None None).

Definition failing_store_env (t : Z) : env :=
  Env t true (fun _ => false) (ProcessEnv None None).

(** Two consultations submitted within the same clock second. *)
Definition same_second_world : world :=
  snd (post_api_consultation simple_isEmail carol_and_dan (quiet_env 1000)
         (snd (post_api_consultation simple_isEmail alice_and_bob
                 (quiet_env 1000) fresh_world))).

(** A body that also carries keys the form does not have. *)
Definition alice_and_bob_with_extras : gmap string string :=
  <["status" := "approved"]>
    (<["id" := "999"]> (<["created_at" := "1999-01-01 00:00:00"]> alice_and_bob)).

Definition vanity_numbers : world :=
  numbers_world [sample_number 1 "07123456789"; sample_number 2 "0800FLOWERS"].

Definition area_code_query (area_code : string) : gmap string string :=
  <["area_code" := area_code]> ∅.

(** ** The routes, and requests served one after another *)

(** The rows an admin listing response carries (none on a failure). *)
Definition consultations_of (r : response) : list consultation :=
  match json r with
  | Consultations l => l
  | _ => []
  end.

(** The identifier a consultation response carries. *)
Definition submitted_id (r : response) : option Z :=
  match json r with
  | ConsultationSubmitted _ id => Some id
  | _ => None
  end.

Definition is_submitted (r : response) : bool :=
  match json r with
  | ConsultationSubmitted _ _ => true
  | _ => false
  end.

Definition is_subscribed (r : response) : bool :=
  match json r with
  | Subscribed _ => true
  | _ => false
  end.

(** A request to one of the four routes that reach the store. *)
Inductive request : Type :=
| PostConsultation (req_body : gmap string string)
| GetNumbersSearch (req_query : gmap string string)
| PostNewsletter (req_body : gmap string string)
| GetAdminConsultations (req_query : gmap string string).

(** The route table: [app.post] and [app.get] registrations.  An answer
    here is one a handler gives after its validation check or from its
    store callback; what the middleware answers before a handler runs
    (body parser, rate limiter, unmatched route) is not part of it. *)
Definition serve (isEmail : string -> bool) (rq : request) : handler response :=
  match rq with
  | PostConsultation req_body => post_api_consultation isEmail req_body
  | GetNumbersSearch req_query => get_api_numbers_search req_query
  | PostNewsletter req_body => post_api_newsletter isEmail req_body
  | GetAdminConsultations req_query => get_api_admin_consultations req_query
  end.

(** Requests served one after another, each with its own outside world.
    (The store runs one statement at a time, and a handler touches the
    store once.) *)
Fixpoint serve_all (isEmail : string -> bool) (rqs : list (request * env))
    (w : world) : list response * world :=
  match rqs with
  | [] => ([], w)
  | (rq, e) :: rest =>
      let '(r, w') := serve isEmail rq e w in
      let '(rs, w'') := serve_all isEmail rest w' in
      (r :: rs, w'')
  end.

(** Descending order of creation timestamps. *)
Definition newer_first (a b : consultation) : Prop :=
  c_created_at b <= c_created_at a.

(** A page of the admin listing. *)
Definition page_query (base : gmap string string) (limit offset : string)
  : gmap string string :=
  <["limit" := limit]> (<["offset" := offset]> base).

(** A morning of traffic for the examples. *)
Definition sample_traffic : list (request * env) :=
  [ (PostConsultation alice_and_bob, quiet_env 1000);
    (PostNewsletter newsletter_signup, rejecting_transport_env 1001);
    (PostConsultation (delete "phone" carol_and_dan), quiet_env 1002);
    (GetAdminConsultations first_page, quiet_env 1003);
    (PostNewsletter newsletter_signup, quiet_env 1004);
    (PostConsultation carol_and_dan, failing_store_env 1005);
    (GetNumbersSearch (area_code_query "07"), quiet_env 1006);
    (PostConsultation carol_and_dan, quiet_env 1007) ].

(** The conditions the admin listing ends up with in its WHERE clause. *)
Definition listing_conditions (req_query : gmap string string)
  : list (consultation -> bool) :=
  if Js.truthy (req_query !! "status")
  then [fun r => Sql.text_eq (c_status r) (Js.toString (req_query !! "status"))]
  else [].

(** The world after a failed statement: only the console has a new line. *)
Definition after_database_error (w : world) (text : string) : world :=
  World (w_db w) (w_outbox w) (w_console w ++ [ConsoleError text]).


(** ** Schema creation at start-up *)

(** The database file: a table is there or not yet. *)
Record db_file : Type := DbFile {
  f_consultations : option (Sql.table consultation);
  f_customers : option (Sql.table customer);
  f_phone_numbers : option (Sql.table phone_number);
  f_orders : option (Sql.table order);
  f_email_subscribers : option (Sql.table email_subscriber)
}.

Definition empty_file : db_file := DbFile None None None None None.

(** The [tables] array of [initializeDatabase], by table name. *)
Definition table_names : list string :=
  ["consultations"; "customers"; "phone_numbers"; "orders";
   "email_subscribers"].

(** [CREATE TABLE IF NOT EXISTS]: a failed statement changes nothing, a
    table that exists is left alone, a missing one is created empty. *)
Definition create_table_if_not_exists {R : Type} (fault : bool)
    (existing : option (Sql.table R)) : option (Sql.table R) :=
  if fault then existing
  else match existing with
       | Some t => Some t
       | None => Some Sql.empty_table
       end.

(** [initializeDatabase()] on a file: the five statements are run in
    turn; [fault] tells which of them the engine fails, and each failure
    is logged and otherwise ignored. *)
Definition initializeDatabase_run (fault : string -> bool) (f : db_file)
  : db_file * list console_line :=
  (DbFile
     (create_table_if_not_exists (fault "consultations") (f_consultations f))
     (create_table_if_not_exists (fault "customers") (f_customers f))
     (create_table_if_not_exists (fault "phone_numbers") (f_phone_numbers f))
     (create_table_if_not_exists (fault "orders") (f_orders f))
     (create_table_if_not_exists (fault "email_subscribers")
                                 (f_email_subscribers f)),
   flat_map (fun name => if fault name
                         then [ConsoleError "Error creating table:"]
                         else [])
            table_names).

(** The store the handlers work on, once all five tables are there. *)
Definition open_store (f : db_file) : option database :=
  match f_consultations f, f_customers f, f_phone_numbers f, f_orders f,
        f_email_subscribers f with
  | Some c, Some cu, Some p, Some o, Some s => Some (Database c cu p o s 0)
  | _, _, _, _, _ => None
  end.

Definition no_fault (name : string) : bool := false.

(** A file that already holds a consultation, and a start-up during which
    the statement for [orders] fails. *)
Definition used_file : db_file :=
  DbFile (Some (consultations (w_db same_second_world))) None None None None.

Definition orders_fault (name : string) : bool := String.eqb name "orders".

(** Texts with bytes that cannot be typed: the filter [07<NUL>zz], the
    letter e-acute (C3 A9) and the three-byte form E0 83 A9, which the
    engine's UTF-8 reader takes for the same letter. *)
Definition nul_filter : string :=
  "07" +:+ String (ascii_of_nat 0) "zz".

Definition e_acute : string :=
  String (ascii_of_nat 195) (String (ascii_of_nat 169) "").

Definition long_e_acute : string :=
  String (ascii_of_nat 224)
    (String (ascii_of_nat 131) (String (ascii_of_nat 169) "")).


(** * Properties *)

Section Properties.

Variable isEmail : string -> bool.

(** validator.js's [isEmail] rejects the empty string, which is what a
    missing field looks like to a validator. *)
Hypothesis isEmail_empty : isEmail "" = false.

(** ** Validation *)

Lemma run_chain_paths (req_body : gmap string string) (c : validation_chain)
    (err : validation_error) :
  In err (run_chain req_body c) ->
  ve_path err = vc_path c /\
  vc_validator c (Js.toString (req_body !! vc_path c)) = false.
Proof.
  unfold run_chain.
  destruct (vc_validator c (Js.toString (req_body !! vc_path c))) eqn:Hv.
  - intros [].
  - intros [<- | []]. auto.
Qed.

Lemma validationResult_lists (chains : list validation_chain)
    (req_body : gmap string string) (c : validation_chain) :
  In c chains ->
  vc_validator c (Js.toString (req_body !! vc_path c)) = false ->
  In (vc_path c) (map ve_path (validationResult chains req_body)).
Proof.
  intros Hc Hv. apply in_map_iff.
  exists (ValidationError (req_body !! vc_path c) (vc_message c) (vc_path c) "body").
  split; [reflexivity |].
  unfold validationResult. apply in_flat_map. exists c. split; [assumption |].
  unfold run_chain. rewrite Hv. now left.
Qed.

Lemma validationResult_only (chains : list validation_chain)
    (req_body : gmap string string) (err : validation_error) :
  In err (validationResult chains req_body) ->
  exists c, In c chains /\ ve_path err = vc_path c /\
            vc_validator c (Js.toString (req_body !! vc_path c)) = false.
Proof.
  unfold validationResult. intros H. apply in_flat_map in H.
  destruct H as (c & Hc & Herr). exists c. split; [assumption |].
  now apply run_chain_paths.
Qed.

Lemma validationResult_nil (chains : list validation_chain)
    (req_body : gmap string string) (c : validation_chain) :
  validationResult chains req_body = [] ->
  In c chains ->
  vc_validator c (Js.toString (req_body !! vc_path c)) = true.
Proof.
  intros Hnil Hc.
  destruct (vc_validator c (Js.toString (req_body !! vc_path c))) eqn:Hv;
    [reflexivity |].
  pose proof (validationResult_lists chains req_body c Hc Hv) as Hin.
  rewrite Hnil in Hin. destruct Hin.
Qed.

Lemma notEmpty_present (v : Js.value) :
  notEmpty (Js.toString v) = true -> exists s, v = Some s /\ s <> "".
Proof.
  unfold notEmpty. destruct v as [s |]; simpl.
  - intros H. exists s. split; [reflexivity |].
    intros ->. discriminate H.
  - discriminate.
Qed.

Lemma isEmail_present (v : Js.value) :
  isEmail (Js.toString v) = true -> exists s, v = Some s /\ isEmail s = true.
Proof.
  destruct v as [s |]; simpl.
  - intros H. now exists s.
  - rewrite isEmail_empty. discriminate.
Qed.

(** A body that passes [consultationValidation] carries the five required
    fields. *)
Lemma consultation_valid_fields (req_body : gmap string string) :
  validationResult (consultationValidation isEmail) req_body = [] ->
  exists rt n em p b,
    req_body !! "relationshipType" = Some rt /\
    req_body !! "names" = Some n /\
    req_body !! "email" = Some em /\
    req_body !! "phone" = Some p /\
    req_body !! "budget" = Some b /\
    isEmail em = true.
Proof.
  intros Hnil.
  pose proof (fun c => validationResult_nil _ req_body c Hnil) as Hall.
  destruct (notEmpty_present (req_body !! "relationshipType")) as (rt & Hrt & _).
  { apply (Hall (Body "relationshipType" notEmpty "Relationship type is required")).
    simpl; tauto. }
  destruct (notEmpty_present (req_body !! "names")) as (n & Hn & _).
  { apply (Hall (Body "names" notEmpty "Names are required")). simpl; tauto. }
  destruct (isEmail_present (req_body !! "email")) as (em & Hem & Hok).
  { apply (Hall (Body "email" isEmail "Valid email is required")). simpl; tauto. }
  destruct (notEmpty_present (req_body !! "phone")) as (p & Hp & _).
  { apply (Hall (Body "phone" notEmpty "Phone number is required")). simpl; tauto. }
  destruct (notEmpty_present (req_body !! "budget")) as (b & Hb & _).
  { apply (Hall (Body "budget" notEmpty "Budget selection is required")).
    simpl; tauto. }
  exists rt, n, em, p, b. auto 10.
Qed.

(** ** Rowids and the schema invariant *)

Lemma max_rowid_nonneg (ids : list Z) : 0 <= Sql.max_rowid ids.
Proof. induction ids as [| i ids IH]; simpl; lia. Qed.

Lemma max_rowid_bound (ids : list Z) :
  Forall (fun i => i <= Sql.max_rowid ids) ids.
Proof.
  induction ids as [| i ids IH]; simpl; constructor.
  - lia.
  - eapply Forall_impl; [exact IH |]. simpl. intros; lia.
Qed.

Lemma next_rowid_fresh {R : Type} (rowid : R -> Z) (t : Sql.table R) :
  Forall (fun i => i < Sql.next_rowid rowid t) (map rowid (Sql.rows t)).
Proof.
  unfold Sql.next_rowid.
  eapply Forall_impl; [apply max_rowid_bound |]. simpl. intros; lia.
Qed.

Lemma next_rowid_above_seq {R : Type} (rowid : R -> Z) (t : Sql.table R) :
  Sql.seq t < Sql.next_rowid rowid t.
Proof. unfold Sql.next_rowid. lia. Qed.

Lemma StronglySorted_snoc (l : list Z) (x : Z) :
  StronglySorted Z.lt l -> Forall (fun i => i < x) l ->
  StronglySorted Z.lt (l ++ [x]).
Proof.
  induction 1 as [| a l Hl IH Ha]; intros Hx; simpl.
  - repeat constructor.
  - inversion Hx; subst. constructor.
    + now apply IH.
    + apply Forall_app. split; [assumption |]. now repeat constructor.
Qed.

(** Appending a row under the rowid the table hands out keeps the table
    well formed. *)
Lemma wf_table_append {R : Type} (rowid : R -> Z) (t : Sql.table R) (row : R) :
  wf_table rowid t ->
  rowid row = Sql.next_rowid rowid t ->
  wf_table rowid (Sql.Table (Sql.rows t ++ [row]) (rowid row)).
Proof.
  intros (Hsorted & Hseq & Hbound) Hid. unfold wf_table. simpl.
  rewrite map_app. simpl.
  pose proof (next_rowid_above_seq rowid t) as Habove.
  pose proof (next_rowid_fresh rowid t) as Hfresh.
  rewrite <- Hid in Habove, Hfresh.
  repeat split.
  - now apply StronglySorted_snoc.
  - lia.
  - apply Forall_app. split.
    + eapply Forall_impl; [exact Hfresh |]. simpl. intros; lia.
    + repeat constructor. lia.
Qed.

(** Drawing a rowid without using it only moves the counter. *)
Lemma wf_table_bump {R : Type} (rowid : R -> Z) (t : Sql.table R) :
  wf_table rowid t ->
  wf_table rowid (Sql.Table (Sql.rows t) (Sql.next_rowid rowid t)).
Proof.
  intros (Hsorted & Hseq & Hbound). unfold wf_table. simpl.
  pose proof (next_rowid_above_seq rowid t) as Habove.
  repeat split; [assumption | lia |].
  eapply Forall_impl; [exact Hbound |]. simpl. intros; lia.
Qed.

Lemma initializeDatabase_wf : wf_database initializeDatabase.
Proof.
  unfold wf_database, wf_table. simpl.
  repeat split; try constructor; lia.
Qed.

Lemma insert_consultation_wf
    (rt n em p a pr b : Js.value) (t : Z) (db db' : database) :
  wf_database db ->
  insert_consultation rt n em p a pr b t db = Sql.Ok db' ->
  wf_database db'.
Proof.
  intros (Hc & Hs & He) Hins. unfold insert_consultation in Hins.
  destruct rt, n, em, p, b; try discriminate Hins.
  injection Hins as <-. unfold wf_database. simpl.
  split; [| split; assumption].
  apply (wf_table_append c_id (consultations db)
           (Consultation (Sql.next_rowid c_id (consultations db))
              s s0 s1 s2 (Sql.numeric_affinity <$> a) pr s3
              (Some "pending") t t)); auto.
Qed.

Lemma existsb_has_email (email : string) (l : list email_subscriber) :
  existsb (has_email email) l = true <-> In email (map s_email l).
Proof.
  unfold has_email. split.
  - intros H. apply existsb_exists in H. destruct H as (s & Hs & Heq).
    apply in_map_iff. exists s. split; [now apply String.eqb_eq | assumption].
  - intros H. apply in_map_iff in H. destruct H as (s & Heq & Hs).
    apply existsb_exists. exists s. split; [assumption | now apply String.eqb_eq].
Qed.

Lemma NoDup_snoc {A : Type} (l : list A) (x : A) :
  NoDup l -> ~ In x l -> NoDup (l ++ [x]).
Proof.
  intros Hl Hx. apply NoDup_app. split; [assumption | split].
  - intros y Hy Hin. apply list_elem_of_In in Hy, Hin.
    destruct Hin as [<- | []]. contradiction.
  - apply NoDup_singleton.
Qed.

Lemma insert_or_ignore_subscriber_wf
    (email source : Js.value) (t : Z) (db db' : database) :
  wf_database db ->
  insert_or_ignore_subscriber email source t db = Sql.Ok db' ->
  wf_database db'.
Proof.
  intros (Hc & Hs & He) Hins. unfold insert_or_ignore_subscriber in Hins.
  assert (Hbump : wf_database
            (Database (consultations db) (customers db) (phone_numbers db)
               (orders db)
               (Sql.Table (Sql.rows (email_subscribers db))
                  (Sql.next_rowid s_id (email_subscribers db)))
               (last_insert_rowid db))).
  { unfold wf_database. simpl.
    split; [assumption | split; [now apply wf_table_bump | assumption]]. }
  destruct email as [e |]; [| now injection Hins as <-].
  destruct (existsb (has_email e) (Sql.rows (email_subscribers db))) eqn:Hex;
    [now injection Hins as <- |].
  injection Hins as <-. unfold wf_database. simpl.
  split; [assumption |]. split.
  - apply (wf_table_append s_id (email_subscribers db)
             (EmailSubscriber (Sql.next_rowid s_id (email_subscribers db))
                e source (Some "active") t)); auto.
  - rewrite map_app. simpl. apply NoDup_snoc; [assumption |].
    intros Hin. apply existsb_has_email in Hin. congruence.
Qed.

(** ** Consultation submission *)

Lemma post_api_consultation_invalid_run (req_body : gmap string string)
    (e : env) (w : world) :
  validationResult (consultationValidation isEmail) req_body <> [] ->
  post_api_consultation isEmail req_body e w =
  (Response 400
     (ValidationErrors
        (validationResult (consultationValidation isEmail) req_body)), w).
Proof.
  intros Hne. unfold post_api_consultation.
  destruct (validationResult (consultationValidation isEmail) req_body);
    [congruence | reflexivity].
Qed.

Lemma post_api_consultation_fault_run (req_body : gmap string string)
    (e : env) (w : world) :
  validationResult (consultationValidation isEmail) req_body = [] ->
  db_fault e = true ->
  post_api_consultation isEmail req_body e w =
  (Response 500 (Failure "Database error"),
   World (w_db w) (w_outbox w)
         (w_console w ++ [ConsoleError "Database error:"])).
Proof.
  intros Hnil Hfault. unfold post_api_consultation. rewrite Hnil.
  unfold bind, db_run. rewrite Hfault. reflexivity.
Qed.

Lemma try_send_run (m : mailOptions) (sent_text error_text : string)
    (e : env) (w : world) :
  try_send m sent_text error_text e w =
  (tt, World (w_db w) (w_outbox w ++ [m])
             (w_console w ++ [outcome_line e m sent_text error_text])).
Proof.
  unfold try_send, bind, sendMail, outcome_line.
  destruct (smtp_fault e m); reflexivity.
Qed.

(** The whole effect of a valid submission on a working store. *)
Lemma post_api_consultation_ok_run (req_body : gmap string string)
    (e : env) (w : world) (rt n em p b : string) :
  validationResult (consultationValidation isEmail) req_body = [] ->
  db_fault e = false ->
  req_body !! "relationshipType" = Some rt ->
  req_body !! "names" = Some n ->
  req_body !! "email" = Some em ->
  req_body !! "phone" = Some p ->
  req_body !! "budget" = Some b ->
  let id := Sql.next_rowid c_id (consultations (w_db w)) in
  let m1 := confirmation_mailOptions e (Some em) (Some n) id in
  let m2 := admin_mailOptions e (alert_data id req_body) in
  post_api_consultation isEmail req_body e w =
  (Response 200
     (ConsultationSubmitted "Consultation request submitted successfully" id),
   World
     (Database
        (Sql.Table (Sql.rows (consultations (w_db w)) ++
                    [submitted_row id rt n em p req_body b (now e)]) id)
        (customers (w_db w)) (phone_numbers (w_db w)) (orders (w_db w))
        (email_subscribers (w_db w)) id)
     (w_outbox w ++ [m1; m2])
     (w_console w ++
      [outcome_line e m1 "Confirmation email sent to:"
                    "Error sending confirmation email:";
       outcome_line e m2 "Admin notification sent for consultation:"
                    "Error sending admin notification:"])).
Proof.
  intros Hnil Hfault Hrt Hn Hem Hp Hb id m1 m2.
  unfold post_api_consultation. rewrite Hnil.
  unfold bind at 1. unfold db_run. rewrite Hfault.
  rewrite Hrt, Hn, Hem, Hp, Hb. unfold insert_consultation.
  cbn [w_db w_outbox w_console last_insert_rowid].
  unfold sendConsultationConfirmation, sendAdminNotification, bind, ask, ret.
  rewrite !try_send_run. cbn [w_db w_outbox w_console].
  rewrite <- !app_assoc. simpl.
  subst id m1 m2. unfold alert_data. rewrite Hrt, Hn, Hem, Hp, Hb. reflexivity.
Qed.

(** C1. A submission that passes validation on a store that takes the
    insert is answered with success and the identifier the store generated,
    a positive integer no earlier row has; the store then holds one more
    consultation row, under that identifier, whose relationship type,
    names, email, phone and budget are the submitted ones, whose
    anniversary is NULL when the field was absent and whose preferences is
    the empty string when the field was absent. *)
Theorem consultation_submission_stored (req_body : gmap string string)
    (e : env) (w : world) :
  wf_database (w_db w) ->
  validationResult (consultationValidation isEmail) req_body = [] ->
  db_fault e = false ->
  exists (id : Z) (row : consultation) (message : string),
    fst (post_api_consultation isEmail req_body e w) =
      Response 200 (ConsultationSubmitted message id) /\
    0 < id /\
    Sql.rows (consultations (w_db (snd (post_api_consultation isEmail req_body e w)))) =
      Sql.rows (consultations (w_db w)) ++ [row] /\
    Forall (fun r => c_id r < id) (Sql.rows (consultations (w_db w))) /\
    c_id row = id /\
    req_body !! "relationshipType" = Some (c_relationship_type row) /\
    req_body !! "names" = Some (c_names row) /\
    req_body !! "email" = Some (c_email row) /\
    req_body !! "phone" = Some (c_phone row) /\
    req_body !! "budget" = Some (c_budget row) /\
    (req_body !! "anniversary" = None -> c_anniversary row = None) /\
    (req_body !! "preferences" = None -> c_preferences row = Some "").
Proof.
  intros Hwf Hnil Hfault.
  destruct (consultation_valid_fields req_body Hnil)
    as (rt & n & em & p & b & Hrt & Hn & Hem & Hp & Hb & _).
  rewrite (post_api_consultation_ok_run req_body e w rt n em p b) by assumption.
  cbn [fst snd w_db consultations Sql.rows].
  eexists _, _, _. split; [reflexivity |].
  destruct Hwf as ((_ & Hseq & _) & _).
  pose proof (next_rowid_above_seq c_id (consultations (w_db w))) as Habove.
  split; [lia |]. split; [reflexivity |]. split.
  { pose proof (next_rowid_fresh c_id (consultations (w_db w))) as Hfresh.
    apply Forall_map in Hfresh. exact Hfresh. }
  unfold submitted_row. cbn [c_id c_relationship_type c_names c_email c_phone
                              c_budget c_anniversary c_preferences].
  repeat (split; [first [reflexivity | assumption] |]).
  split; intros ->; reflexivity.
Qed.

(** C2. When a required field is missing or blank, or the email is
    malformed, the answer is the 400 validation failure; its error list
    names every required field that is missing or blank and the malformed
    email, all together, and names nothing that is in order; the store,
    the outbox and the console are exactly as before, so nothing was
    written and no mail attempted. *)
Theorem consultation_validation_failure (req_body : gmap string string)
    (e : env) (w : world) :
  (exists f, In f required_fields /\
             (req_body !! f = None \/ req_body !! f = Some "")) \/
  isEmail (Js.toString (req_body !! "email")) = false ->
  exists errors : list validation_error,
    post_api_consultation isEmail req_body e w =
      (Response 400 (ValidationErrors errors), w) /\
    (forall f, In f required_fields ->
               req_body !! f = None \/ req_body !! f = Some "" ->
               In f (map ve_path errors)) /\
    (isEmail (Js.toString (req_body !! "email")) = false ->
     In "email" (map ve_path errors)) /\
    (forall err, In err errors ->
       In (ve_path err) required_fields /\
       (Js.toString (req_body !! ve_path err) = "" \/
        ve_path err = "email" /\
        isEmail (Js.toString (req_body !! "email")) = false)).
Proof.
  intros Hbad.
  set (chains := consultationValidation isEmail).
  assert (Hblank : forall f, req_body !! f = None \/ req_body !! f = Some "" ->
                             Js.toString (req_body !! f) = "").
  { intros f [-> | ->]; reflexivity. }
  assert (Hmissing : forall f, In f required_fields ->
            req_body !! f = None \/ req_body !! f = Some "" ->
            In f (map ve_path (validationResult chains req_body))).
  { intros f Hf Hnone. apply Hblank in Hnone. simpl in Hf.
    destruct Hf as [<- | [<- | [<- | [<- | [<- | []]]]]].
    - apply (validationResult_lists chains req_body
               (Body "relationshipType" notEmpty "Relationship type is required")).
      + simpl; tauto.
      + cbn [vc_path vc_validator]. now rewrite Hnone.
    - apply (validationResult_lists chains req_body
               (Body "names" notEmpty "Names are required")).
      + simpl; tauto.
      + cbn [vc_path vc_validator]. now rewrite Hnone.
    - apply (validationResult_lists chains req_body
               (Body "email" isEmail "Valid email is required")).
      + simpl; tauto.
      + cbn [vc_path vc_validator]. now rewrite Hnone.
    - apply (validationResult_lists chains req_body
               (Body "phone" notEmpty "Phone number is required")).
      + simpl; tauto.
      + cbn [vc_path vc_validator]. now rewrite Hnone.
    - apply (validationResult_lists chains req_body
               (Body "budget" notEmpty "Budget selection is required")).
      + simpl; tauto.
      + cbn [vc_path vc_validator]. now rewrite Hnone. }
  assert (Hemail : isEmail (Js.toString (req_body !! "email")) = false ->
            In "email" (map ve_path (validationResult chains req_body))).
  { intros Hmal.
    apply (validationResult_lists chains req_body
             (Body "email" isEmail "Valid email is required"));
      [simpl; tauto | exact Hmal]. }
  exists (validationResult chains req_body).
  split; [| split; [exact Hmissing | split; [exact Hemail |]]].
  - apply post_api_consultation_invalid_run. fold chains. intros Hnil.
    rewrite Hnil in Hmissing, Hemail.
    destruct Hbad as [(f & Hf & Hnone) | Hmal].
    + exact (Hmissing f Hf Hnone).
    + exact (Hemail Hmal).
  - intros err Herr. apply validationResult_only in Herr.
    destruct Herr as (c & Hc & -> & Hfalse). simpl in Hc.
    destruct Hc as [<- | [<- | [<- | [<- | [<- | []]]]]];
      cbn [vc_path vc_validator] in *;
      (split; [simpl; tauto |]);
      try (right; split; [reflexivity | exact Hfalse]);
      left; unfold notEmpty in Hfalse;
      apply negb_false_iff in Hfalse; now apply String.eqb_eq in Hfalse.
Qed.

(** C3. When the store fails the insert of a validated submission the
    answer is the 500 failure, the store is what it was (no new
    consultation row) and the outbox is what it was (neither the customer
    confirmation nor the admin alert was attempted). *)
Theorem consultation_insert_failure (req_body : gmap string string)
    (e : env) (w : world) :
  validationResult (consultationValidation isEmail) req_body = [] ->
  db_fault e = true ->
  status (fst (post_api_consultation isEmail req_body e w)) = 500 /\
  success (fst (post_api_consultation isEmail req_body e w)) = false /\
  w_db (snd (post_api_consultation isEmail req_body e w)) = w_db w /\
  w_outbox (snd (post_api_consultation isEmail req_body e w)) = w_outbox w.
Proof.
  intros Hnil Hfault.
  rewrite (post_api_consultation_fault_run req_body e w Hnil Hfault).
  repeat split.
Qed.

(** Only the five validated fields enter the validation result. *)
Lemma consultation_validation_reads (req_body req_body' : gmap string string) :
  (forall f, In f required_fields -> req_body !! f = req_body' !! f) ->
  validationResult (consultationValidation isEmail) req_body =
  validationResult (consultationValidation isEmail) req_body'.
Proof.
  intros Hsame. unfold validationResult, consultationValidation.
  cbn [flat_map]. unfold run_chain. cbn [vc_path vc_validator vc_message].
  rewrite !(Hsame _) by (simpl; tauto). reflexivity.
Qed.

(** C10. The consultation handler reads the seven submitted fields and
    nothing else: two bodies that agree on them (whatever status, id or
    timestamp keys they carry besides) produce the same response, the same
    store, the same mails and the same console output.  Every row the
    handler adds has status 'pending', the rowid drawn by the store and the
    store's current timestamp. *)
Theorem consultation_reads_submitted_fields_only
    (req_body req_body' : gmap string string) (e : env) (w : world) :
  (forall f, In f submitted_fields -> req_body !! f = req_body' !! f) ->
  post_api_consultation isEmail req_body e w =
    post_api_consultation isEmail req_body' e w /\
  (forall row,
     In row (Sql.rows (consultations
                         (w_db (snd (post_api_consultation isEmail req_body e w))))) ->
     In row (Sql.rows (consultations (w_db w))) \/
     (c_status row = Some "pending" /\
      c_id row = Sql.next_rowid c_id (consultations (w_db w)) /\
      c_created_at row = now e /\
      c_updated_at row = now e)).
Proof.
  intros Hsame. split.
  - unfold post_api_consultation.
    rewrite (consultation_validation_reads req_body req_body')
      by (intros f Hf; apply Hsame; simpl in *; tauto).
    rewrite !(Hsame _) by (simpl; tauto). reflexivity.
  - intros row.
    destruct (validationResult (consultationValidation isEmail) req_body)
      as [| err errs] eqn:Hv.
    + destruct (db_fault e) eqn:Hfault.
      * rewrite (post_api_consultation_fault_run req_body e w Hv Hfault).
        simpl. tauto.
      * destruct (consultation_valid_fields req_body Hv)
          as (rt & n & em & p & b & Hrt & Hn & Hem & Hp & Hb & _).
        rewrite (post_api_consultation_ok_run req_body e w rt n em p b)
          by assumption.
        cbn [fst snd w_db consultations Sql.rows]. intros Hin.
        apply in_app_or in Hin. destruct Hin as [Hold | [<- | []]].
        -- now left.
        -- right. repeat split.
    + rewrite post_api_consultation_invalid_run by (rewrite Hv; discriminate).
      simpl. tauto.
Qed.

(** ** Newsletter signup *)

Lemma newsletter_validation_ok (req_body : gmap string string) (em : string) :
  req_body !! "email" = Some em -> isEmail em = true ->
  validationResult (newsletterValidation isEmail) req_body = [].
Proof.
  intros Hem Hok. unfold validationResult, newsletterValidation.
  cbn [flat_map]. unfold run_chain. cbn [vc_path vc_validator].
  rewrite Hem. simpl. now rewrite Hok.
Qed.

(** The subscriber table after [INSERT OR IGNORE] of an address. *)
Lemma insert_or_ignore_subscriber_rows (em : string) (source : Js.value)
    (t : Z) (db : database) :
  exists db',
    insert_or_ignore_subscriber (Some em) source t db = Sql.Ok db' /\
    consultations db' = consultations db /\
    Sql.rows (email_subscribers db') =
      (if existsb (has_email em) (Sql.rows (email_subscribers db))
       then Sql.rows (email_subscribers db)
       else Sql.rows (email_subscribers db) ++
            [EmailSubscriber (Sql.next_rowid s_id (email_subscribers db))
                             em source (Some "active") t]).
Proof.
  unfold insert_or_ignore_subscriber.
  destruct (existsb (has_email em) (Sql.rows (email_subscribers db)));
    eexists; repeat split.
Qed.

(** The whole effect of a well-formed signup on a working store. *)
Lemma post_api_newsletter_ok_run (req_body : gmap string string)
    (e : env) (w : world) (em : string) :
  req_body !! "email" = Some em -> isEmail em = true ->
  db_fault e = false ->
  exists db',
    insert_or_ignore_subscriber
      (Some em) (Some (Js.with_default (req_body !! "source") "newsletter"))
      (now e) (w_db w) = Sql.Ok db' /\
    post_api_newsletter isEmail req_body e w =
    (Response 200 (Subscribed "Successfully subscribed to newsletter"),
     World db'
       (w_outbox w ++ [welcome_mailOptions e (Some em)])
       (w_console w ++
        [outcome_line e (welcome_mailOptions e (Some em))
           "Welcome email sent to:" "Error sending welcome email:"])).
Proof.
  intros Hem Hok Hfault.
  destruct (insert_or_ignore_subscriber_rows em
              (Some (Js.with_default (req_body !! "source") "newsletter"))
              (now e) (w_db w)) as (db' & Hins & _).
  exists db'. split; [exact Hins |].
  unfold post_api_newsletter.
  rewrite (newsletter_validation_ok req_body em Hem Hok).
  unfold bind at 1. unfold db_run. rewrite Hfault, Hem, Hins.
  unfold sendWelcomeEmail, bind, ask, ret. rewrite try_send_run.
  reflexivity.
Qed.

Lemma post_api_newsletter_fault_run (req_body : gmap string string)
    (e : env) (w : world) :
  validationResult (newsletterValidation isEmail) req_body = [] ->
  db_fault e = true ->
  post_api_newsletter isEmail req_body e w =
  (Response 500 (Failure "Database error"),
   World (w_db w) (w_outbox w)
         (w_console w ++ [ConsoleError "Newsletter subscription error:"])).
Proof.
  intros Hnil Hfault. unfold post_api_newsletter. rewrite Hnil.
  unfold bind, db_run. rewrite Hfault. reflexivity.
Qed.

Lemma post_api_newsletter_invalid_run (req_body : gmap string string)
    (e : env) (w : world) :
  validationResult (newsletterValidation isEmail) req_body <> [] ->
  post_api_newsletter isEmail req_body e w =
  (Response 400
     (ValidationErrors
        (validationResult (newsletterValidation isEmail) req_body)), w).
Proof.
  intros Hne. unfold post_api_newsletter.
  destruct (validationResult (newsletterValidation isEmail) req_body);
    [congruence | reflexivity].
Qed.

Lemma count_unique_email (em : string) (l : list email_subscriber) :
  NoDup (map s_email l) -> In em (map s_email l) ->
  length (List.filter (has_email em) l) = 1%nat.
Proof.
  induction l as [| s l IH]; simpl; intros Hnd Hin; [destruct Hin |].
  inversion Hnd as [| ? ? Hnotin Hnd']; subst.
  unfold has_email at 1.
  destruct (String.eqb (s_email s) em) eqn:Heq.
  - apply String.eqb_eq in Heq. subst em. simpl. f_equal.
    destruct (List.filter (has_email (s_email s)) l) as [| s' rest] eqn:Hf;
      [reflexivity |].
    exfalso. apply Hnotin.
    assert (Hs' : In s' (List.filter (has_email (s_email s)) l))
      by (rewrite Hf; now left).
    apply filter_In in Hs'. destruct Hs' as (Hs'l & Hs'e).
    unfold has_email in Hs'e. apply String.eqb_eq in Hs'e.
    apply list_elem_of_In. rewrite <- Hs'e. now apply in_map.
  - apply String.eqb_neq in Heq. destruct Hin as [Hin | Hin]; [congruence |].
    now apply IH.
Qed.

(** C4. Two signups with the same well-formed address, on a store that
    takes both writes, are both answered with success, and the store then
    holds exactly one subscriber row for the address: the second insert
    adds nothing. *)
Theorem newsletter_signup_twice (first_body second_body : gmap string string)
    (e1 e2 : env) (w : world) (em : string) :
  wf_database (w_db w) ->
  first_body !! "email" = Some em ->
  second_body !! "email" = Some em ->
  isEmail em = true ->
  db_fault e1 = false ->
  db_fault e2 = false ->
  let first := post_api_newsletter isEmail first_body e1 w in
  let second := post_api_newsletter isEmail second_body e2 (snd first) in
  (status (fst first) = 200 /\ success (fst first) = true) /\
  (status (fst second) = 200 /\ success (fst second) = true) /\
  length (List.filter (has_email em)
            (Sql.rows (email_subscribers (w_db (snd second))))) = 1%nat /\
  Sql.rows (email_subscribers (w_db (snd second))) =
    Sql.rows (email_subscribers (w_db (snd first))).
Proof.
  intros Hwf Hem1 Hem2 Hok Hf1 Hf2 first second. subst first second.
  destruct (post_api_newsletter_ok_run first_body e1 w em Hem1 Hok Hf1)
    as (db1 & Hins1 & ->).
  cbn [fst snd].
  set (w1 := World db1 _ _).
  destruct (post_api_newsletter_ok_run second_body e2 w1 em Hem2 Hok Hf2)
    as (db2 & Hins2 & ->).
  cbn [fst snd w_db status success json]. subst w1. cbn [w_db] in Hins2.
  pose proof (insert_or_ignore_subscriber_wf _ _ _ _ _ Hwf Hins1) as Hwf1.
  pose proof (insert_or_ignore_subscriber_wf _ _ _ _ _ Hwf1 Hins2) as Hwf2.
  destruct (insert_or_ignore_subscriber_rows em
              (Some (Js.with_default (first_body !! "source") "newsletter"))
              (now e1) (w_db w)) as (db1' & Hins1' & _ & Hrows1).
  rewrite Hins1 in Hins1'. injection Hins1' as <-.
  destruct (insert_or_ignore_subscriber_rows em
              (Some (Js.with_default (second_body !! "source") "newsletter"))
              (now e2) db1) as (db2' & Hins2' & _ & Hrows2).
  rewrite Hins2 in Hins2'. injection Hins2' as <-.
  assert (Hpresent : In em (map s_email (Sql.rows (email_subscribers db1)))).
  { rewrite Hrows1.
    destruct (existsb (has_email em) (Sql.rows (email_subscribers (w_db w))))
      eqn:Hex.
    - now apply existsb_has_email.
    - rewrite map_app. apply in_or_app. right. now left. }
  assert (Hex1 : existsb (has_email em) (Sql.rows (email_subscribers db1)) = true)
    by now apply existsb_has_email.
  rewrite Hex1 in Hrows2.
  repeat split; try assumption.
  rewrite Hrows2. apply count_unique_email; [| assumption].
  now destruct Hwf1 as (_ & _ & Hnd).
Qed.

(** C9. A signup whose store write completes attempts the welcome mail to
    the submitted address, whether or not the address was already
    subscribed; when it was, no row is added and the welcome mail is
    attempted all the same. *)
Theorem newsletter_duplicate_still_welcomes (req_body : gmap string string)
    (e : env) (w : world) (em : string) :
  req_body !! "email" = Some em ->
  isEmail em = true ->
  db_fault e = false ->
  w_outbox (snd (post_api_newsletter isEmail req_body e w)) =
    w_outbox w ++ [welcome_mailOptions e (Some em)] /\
  success (fst (post_api_newsletter isEmail req_body e w)) = true /\
  (In em (map s_email (Sql.rows (email_subscribers (w_db w)))) ->
   Sql.rows (email_subscribers
               (w_db (snd (post_api_newsletter isEmail req_body e w)))) =
   Sql.rows (email_subscribers (w_db w))).
Proof.
  intros Hem Hok Hfault.
  destruct (post_api_newsletter_ok_run req_body e w em Hem Hok Hfault)
    as (db' & Hins & ->).
  cbn [fst snd w_db w_outbox]. repeat split.
  intros Hdup. apply existsb_has_email in Hdup.
  destruct (insert_or_ignore_subscriber_rows em
              (Some (Js.with_default (req_body !! "source") "newsletter"))
              (now e) (w_db w)) as (db'' & Hins' & _ & Hrows).
  rewrite Hins in Hins'. injection Hins' as <-.
  now rewrite Hdup in Hrows.
Qed.

(** ** Notifications *)

Lemma outcome_line_errors (e : env) (ms : list mailOptions)
    (lines : list console_line) :
  Forall2 (fun m l => is_console_error l = smtp_fault e m) ms lines ->
  length (List.filter is_console_error lines) =
  length (List.filter (smtp_fault e) ms).
Proof.
  induction 1 as [| m l ms lines Hml _ IH]; simpl; [reflexivity |].
  rewrite Hml. destruct (smtp_fault e m); simpl; now rewrite IH.
Qed.

Lemma outcome_line_is_error (e : env) (m : mailOptions) (ok err : string) :
  is_console_error (outcome_line e m ok err) = smtp_fault e m.
Proof. unfold outcome_line. now destruct (smtp_fault e m). Qed.

(** C5. Once the row is persisted, the mail transport cannot change the
    outcome: whatever mails it rejects, the consultation and the newsletter
    handlers answer with the same success response and leave the same
    store; each rejected mail shows as one error line on the console and
    nowhere else. *)
Theorem notification_failure_is_only_logged
    (consultation_body newsletter_body : gmap string string)
    (e : env) (w : world) (other : mailOptions -> bool) :
  validationResult (consultationValidation isEmail) consultation_body = [] ->
  validationResult (newsletterValidation isEmail) newsletter_body = [] ->
  db_fault e = false ->
  let c := post_api_consultation isEmail consultation_body e w in
  let c' := post_api_consultation isEmail consultation_body
              (with_smtp_fault e other) w in
  let n := post_api_newsletter isEmail newsletter_body e w in
  let n' := post_api_newsletter isEmail newsletter_body
              (with_smtp_fault e other) w in
  (success (fst c) = true /\ fst c' = fst c /\
   w_db (snd c') = w_db (snd c) /\ w_outbox (snd c') = w_outbox (snd c) /\
   length (console_errors (snd c)) =
     (length (console_errors w) +
      length (List.filter (smtp_fault e)
                (drop (length (w_outbox w)) (w_outbox (snd c)))))%nat) /\
  (success (fst n) = true /\ fst n' = fst n /\
   w_db (snd n') = w_db (snd n) /\ w_outbox (snd n') = w_outbox (snd n) /\
   length (console_errors (snd n)) =
     (length (console_errors w) +
      length (List.filter (smtp_fault e)
                (drop (length (w_outbox w)) (w_outbox (snd n)))))%nat).
Proof.
  intros Hc Hn Hfault c c' n n'. subst c c' n n'. split.
  - destruct (consultation_valid_fields consultation_body Hc)
      as (rt & nm & em & p & b & Hrt & Hnm & Hem & Hp & Hb & _).
    rewrite (post_api_consultation_ok_run consultation_body e w rt nm em p b)
      by assumption.
    rewrite (post_api_consultation_ok_run consultation_body
               (with_smtp_fault e other) w rt nm em p b) by assumption.
    cbn [fst snd w_db w_outbox w_console]. repeat split.
    unfold console_errors. cbn [w_console].
    rewrite List.filter_app, List.length_app, drop_app_length. f_equal.
    apply outcome_line_errors.
    repeat constructor; apply outcome_line_is_error.
  - assert (Hmail : exists em, newsletter_body !! "email" = Some em /\
                               isEmail em = true).
    { apply isEmail_present.
      apply (validationResult_nil _ newsletter_body
               (Body "email" isEmail "Valid email is required") Hn).
      simpl; tauto. }
    destruct Hmail as (em & Hem & Hok).
    destruct (post_api_newsletter_ok_run newsletter_body e w em Hem Hok Hfault)
      as (db & Hins & ->).
    destruct (post_api_newsletter_ok_run newsletter_body
                (with_smtp_fault e other) w em Hem Hok Hfault)
      as (db' & Hins' & ->).
    cbn [now with_smtp_fault] in Hins'. rewrite Hins in Hins'.
    injection Hins' as <-.
    cbn [fst snd w_db w_outbox w_console]. repeat split.
    unfold console_errors. cbn [w_console].
    rewrite List.filter_app, List.length_app, drop_app_length. f_equal.
    apply outcome_line_errors.
    repeat constructor; apply outcome_line_is_error.
Qed.

(** ** Number search *)

Lemma take_rows_take {R : Type} (n : Z) (l : list R) :
  Sql.take_rows n l = take (Z.to_nat n) l.
Proof.
  revert n. induction l as [| x l IH]; intros n; cbn [Sql.take_rows].
  - now destruct (Z.to_nat n).
  - destruct (0 <? n) eqn:Hn.
    + apply Z.ltb_lt in Hn. rewrite IH.
      replace (Z.to_nat n) with (S (Z.to_nat (n - 1))) by lia. reflexivity.
    + apply Z.ltb_ge in Hn. now replace (Z.to_nat n) with 0%nat by lia.
Qed.

Lemma drop_rows_drop {R : Type} (n : Z) (l : list R) :
  Sql.drop_rows n l = drop (Z.to_nat n) l.
Proof.
  revert n. induction l as [| x l IH]; intros n; cbn [Sql.drop_rows].
  - now destruct (Z.to_nat n).
  - destruct (0 <? n) eqn:Hn.
    + apply Z.ltb_lt in Hn. rewrite IH.
      replace (Z.to_nat n) with (S (Z.to_nat (n - 1))) by lia. reflexivity.
    + apply Z.ltb_ge in Hn. now replace (Z.to_nat n) with 0%nat by lia.
Qed.

Lemma limit_incl {R : Type} (n : Z) (l : list R) (r : R) :
  In r (Sql.limit n l) -> In r l.
Proof.
  unfold Sql.limit. destruct (n <? 0); [auto |]. rewrite take_rows_take.
  intros H. rewrite <- (firstn_skipn (Z.to_nat n) l).
  apply in_or_app. now left.
Qed.

Lemma where_all_app {R : Type} (c1 c2 : list (R -> bool)) (r : R) :
  where_all (c1 ++ c2) r = where_all c1 r && where_all c2 r.
Proof. unfold where_all. apply forallb_app. Qed.

Lemma get_api_numbers_search_run (req_query : gmap string string)
    (e : env) (w : world) :
  get_api_numbers_search req_query e w =
  if db_fault e
  then (Response 500 (Failure "Database error"),
        World (w_db w) (w_outbox w)
              (w_console w ++ [ConsoleError "Database error:"]))
  else
    match select_phone_numbers (search_conditions req_query)
            (Js.parseInt (Js.with_default (req_query !! "limit") "10"))
            (w_db w) with
    | Sql.Ok rows => (Response 200 (Numbers rows), w)
    | Sql.Error _ =>
        (Response 500 (Failure "Database error"),
         World (w_db w) (w_outbox w)
               (w_console w ++ [ConsoleError "Database error:"]))
    end.
Proof.
  unfold get_api_numbers_search, search_conditions, bind, db_all.
  destruct (db_fault e); [reflexivity |].
  destruct (Js.truthy (req_query !! "pattern"));
    destruct (Js.truthy (req_query !! "area_code")); cbn [app];
    match goal with
    | |- context [select_phone_numbers ?c ?l ?d] =>
        destruct (select_phone_numbers c l d)
    end; reflexivity.
Qed.

(** Every row of a search response is a stored row that meets every
    condition of the WHERE clause. *)
Lemma numbers_search_rows (req_query : gmap string string) (e : env)
    (w : world) (r : phone_number) :
  In r (numbers_of (fst (get_api_numbers_search req_query e w))) ->
  In r (Sql.rows (phone_numbers (w_db w))) /\
  where_all (search_conditions req_query) r = true.
Proof.
  rewrite get_api_numbers_search_run.
  destruct (db_fault e); [intros [] |].
  unfold select_phone_numbers, Sql.limit_param.
  destruct (Sql.bind_integer
              (Js.parseInt (Js.with_default (req_query !! "limit") "10")));
    [| intros []].
  cbn [fst numbers_of json]. intros Hin.
  apply limit_incl in Hin. now apply filter_In in Hin.
Qed.

Lemma text_eq_true (column : option string) (param : string) :
  Sql.text_eq column param = true -> column = Some param.
Proof.
  destruct column as [s |]; simpl; [| discriminate].
  intros H. apply String.eqb_eq in H. now subst.
Qed.

(** C7. With no filter and no explicit limit the search returns at most
    ten rows, each with status 'available'; on a working store they are
    the first ten available rows, and the store is left as it was. *)
Theorem numbers_search_default (req_query : gmap string string)
    (e : env) (w : world) :
  req_query !! "pattern" = None ->
  req_query !! "area_code" = None ->
  req_query !! "limit" = None ->
  (length (numbers_of (fst (get_api_numbers_search req_query e w))) <= 10)%nat /\
  Forall (fun r => p_status r = Some "available")
         (numbers_of (fst (get_api_numbers_search req_query e w))) /\
  w_db (snd (get_api_numbers_search req_query e w)) = w_db w /\
  (db_fault e = false ->
   fst (get_api_numbers_search req_query e w) =
   Response 200
     (Numbers (take 10 (List.filter
                          (fun r => Sql.text_eq (p_status r) "available")
                          (Sql.rows (phone_numbers (w_db w))))))).
Proof.
  intros Hpattern Harea Hlimit.
  split; [| split; [| split]].
  - rewrite get_api_numbers_search_run.
    destruct (db_fault e); [simpl; lia |].
    rewrite Hlimit. cbn [Js.with_default].
    change (Js.parseInt "10") with (Js.Num 10).
    unfold select_phone_numbers, Sql.limit_param, Sql.limit.
    change (Sql.bind_integer (Js.Num 10)) with (Some 10).
    cbn [Z.ltb Z.compare fst numbers_of json].
    rewrite take_rows_take, length_take. change (Z.to_nat 10) with 10%nat. lia.
  - apply Forall_forall. intros r Hr. apply list_elem_of_In in Hr.
    apply numbers_search_rows in Hr. destruct Hr as (_ & Hwhere).
    unfold search_conditions in Hwhere. rewrite where_all_app in Hwhere.
    apply andb_true_iff in Hwhere. destruct Hwhere as (Havail & _).
    unfold where_all in Havail. simpl in Havail.
    rewrite andb_true_r in Havail. now apply text_eq_true.
  - rewrite get_api_numbers_search_run.
    destruct (db_fault e); [reflexivity |].
    destruct (select_phone_numbers _ _ _); reflexivity.
  - intros Hfault. rewrite get_api_numbers_search_run, Hfault.
    unfold search_conditions. rewrite Hpattern, Harea, Hlimit.
    cbn [Js.truthy Js.with_default app].
    change (Js.parseInt "10") with (Js.Num 10).
    unfold select_phone_numbers, Sql.limit_param, Sql.limit.
    change (Sql.bind_integer (Js.Num 10)) with (Some 10).
    cbn [Z.ltb Z.compare fst]. rewrite take_rows_take.
    change (Z.to_nat 10) with 10%nat.
    do 3 f_equal. apply filter_ext. intros r. unfold where_all. simpl.
    apply andb_true_r.
Qed.

(** The wildcards, by character code. *)
Lemma is_wildcard_code (c : ascii) :
  is_wildcard c = (Js.byte c =? 37) || (Js.byte c =? 95).
Proof. destruct c as [[] [] [] [] [] [] [] []]; reflexivity. Qed.

Lemma byte_fold_case (c : ascii) :
  Js.byte (Sql.fold_case c) = Sql.fold_code (Js.byte c).
Proof. destruct c as [[] [] [] [] [] [] [] []]; reflexivity. Qed.

Lemma byte_inj (c d : ascii) : Js.byte c = Js.byte d -> c = d.
Proof.
  unfold Js.byte. intros H. apply N2Z.inj in H.
  rewrite <- (ascii_N_embedding c), <- (ascii_N_embedding d). now rewrite H.
Qed.

Lemma utf8_fix_high (c : Z) : 128 <= Sql.utf8_fix c.
Proof.
  unfold Sql.utf8_fix. destruct (c <? 128) eqn:Hc; cbn [orb]; [lia |].
  apply Z.ltb_ge in Hc.
  destruct ((Z.land c 4294965248 =? 55296) || (Z.land c 4294967294 =? 65534));
    lia.
Qed.

(** A byte below 192 is read as a character of its own. *)
Lemma utf8_decode_low (b : ascii) (s : string) :
  Js.byte b < 192 ->
  Sql.utf8_decode None (String b s) = Js.byte b :: Sql.utf8_decode None s.
Proof.
  intros Hb. cbn [Sql.utf8_decode].
  apply Z.leb_gt in Hb. now rewrite Hb.
Qed.

(** A multi-byte form is never read as an ASCII character. *)
Lemma utf8_decode_pending (c : Z) (s : string) :
  exists c' rest, Sql.utf8_decode (Some c) s = Sql.utf8_fix c' :: rest.
Proof.
  revert c. induction s as [| b s IH]; intros c; cbn [Sql.utf8_decode].
  - eauto.
  - destruct (Sql.is_continuation (Js.byte b)); [apply IH | eauto].
Qed.

Lemma utf8_decode_high (b : ascii) (s : string) :
  192 <= Js.byte b ->
  exists c' rest, Sql.utf8_decode None (String b s) = Sql.utf8_fix c' :: rest.
Proof.
  intros Hb. cbn [Sql.utf8_decode].
  apply Z.leb_le in Hb. rewrite Hb. apply utf8_decode_pending.
Qed.

Lemma literal_char_facts (c : ascii) :
  literal_char c = true ->
  0 < Js.byte c < 128 /\ (Js.byte c =? 37) = false /\ (Js.byte c =? 95) = false.
Proof.
  unfold literal_char. rewrite is_wildcard_code. intros H.
  apply andb_true_iff in H. destruct H as (H & Hw).
  apply andb_true_iff in H. destruct H as (Hpos & Hascii).
  apply negb_true_iff, orb_false_iff in Hw.
  apply Z.ltb_lt in Hpos, Hascii. tauto.
Qed.

(** A filter of literal characters has no NUL to stop at, and neither has
    the [%] appended to it. *)
Lemma c_string_literal (a : string) :
  ascii_literal a = true -> Sql.c_string (a +:+ "%") = a +:+ "%".
Proof.
  induction a as [| c a IH]; [reflexivity |]. cbn [ascii_literal].
  intros H. apply andb_true_iff in H. destruct H as (Hc & Ha).
  apply literal_char_facts in Hc. destruct Hc as ((Hpos & _) & _).
  change (String c a +:+ "%") with (String c (a +:+ "%")).
  cbn [Sql.c_string].
  destruct (Js.byte c =? 0) eqn:Hz; [apply Z.eqb_eq in Hz; lia |].
  now rewrite (IH Ha).
Qed.

Lemma prefix_cons (a b : ascii) (s t : string) :
  String.prefix (String a s) (String b t) = Ascii.eqb a b && String.prefix s t.
Proof.
  simpl. destruct (ascii_dec a b) as [-> | Hne].
  - now rewrite Ascii.eqb_refl.
  - apply Ascii.eqb_neq in Hne. now rewrite Hne.
Qed.

Lemma prefix_empty (t : string) : String.prefix "" t = true.
Proof. now destruct t. Qed.

(** What holds of the text up to its first NUL holds of the text. *)
Lemma prefix_c_string (x t : string) :
  String.prefix x (fold_string (Sql.c_string t)) = true ->
  String.prefix x (fold_string t) = true.
Proof.
  revert x. induction t as [| b t IH]; intros x; [auto |].
  cbn [Sql.c_string]. destruct (Js.byte b =? 0).
  - destruct x; [intros _; apply prefix_empty | discriminate].
  - cbn [fold_string]. destruct x as [| a x]; [intros _; apply prefix_empty |].
    rewrite !prefix_cons. intros H. apply andb_true_iff in H.
    destruct H as (-> & H). now rewrite (IH x H).
Qed.

(** For a filter [a] of literal ASCII characters, a text matched by
    [a || '%'] starts with [a], ASCII letters compared without regard to
    case. *)
Lemma like_literal_prefix (a t : string) :
  ascii_literal a = true ->
  Sql.pattern_compare (Sql.utf8_decode None (a +:+ "%"))
                      (Sql.utf8_decode None t) = true ->
  String.prefix (fold_string a) (fold_string t) = true.
Proof.
  revert t. induction a as [| c a IH]; intros t Hlit Hmatch.
  - apply prefix_empty.
  - cbn [ascii_literal] in Hlit. apply andb_true_iff in Hlit.
    destruct Hlit as (Hc & Ha).
    apply literal_char_facts in Hc. destruct Hc as ((Hpos & Hascii) & H37 & H95).
    change (String c a +:+ "%") with (String c (a +:+ "%")) in Hmatch.
    rewrite utf8_decode_low in Hmatch by lia.
    cbn [Sql.pattern_compare] in Hmatch. rewrite H37, H95 in Hmatch.
    destruct t as [| b t]; [discriminate Hmatch |].
    destruct (Z_lt_ge_dec (Js.byte b) 192) as [Hlow | Hhigh].
    + rewrite utf8_decode_low in Hmatch by exact Hlow.
      apply andb_true_iff in Hmatch. destruct Hmatch as (Heq & Hrest).
      cbn [fold_string]. rewrite prefix_cons, (IH t Ha Hrest), andb_true_r.
      assert (Hfold : Sql.fold_code (Js.byte c) = Sql.fold_code (Js.byte b)).
      { unfold Sql.char_eq_nocase in Heq. apply orb_true_iff in Heq.
        destruct Heq as [Heq | Heq].
        - apply Z.eqb_eq in Heq. now rewrite Heq.
        - apply andb_true_iff in Heq. destruct Heq as (_ & Heq).
          now apply Z.eqb_eq in Heq. }
      rewrite <- !byte_fold_case in Hfold. apply byte_inj in Hfold.
      rewrite Hfold. apply Ascii.eqb_refl.
    + destruct (utf8_decode_high b t) as (c' & rest & Hdec); [lia |].
      rewrite Hdec in Hmatch. pose proof (utf8_fix_high c') as Hfix.
      apply andb_true_iff in Hmatch. destruct Hmatch as (Heq & _).
      unfold Sql.char_eq_nocase in Heq. apply orb_true_iff in Heq.
      destruct Heq as [Heq | Heq].
      * apply Z.eqb_eq in Heq. lia.
      * apply andb_true_iff in Heq. destruct Heq as (Heq & _).
        apply andb_true_iff in Heq. destruct Heq as (_ & Heq).
        apply Z.ltb_lt in Heq. lia.
Qed.

(** C8 (amended). With an area-code filter made of ASCII characters other
    than [%], [_] and NUL, every row the search returns has a number that
    starts with the filter, letters compared without regard to ASCII
    case. *)
Theorem numbers_search_area_code_prefix (req_query : gmap string string)
    (e : env) (w : world) (area_code : string) :
  req_query !! "area_code" = Some area_code ->
  ascii_literal area_code = true ->
  Forall (fun r => String.prefix (fold_string area_code)
                                 (fold_string (p_number r)) = true)
         (numbers_of (fst (get_api_numbers_search req_query e w))).
Proof.
  intros Harea Hlit. apply Forall_forall. intros r Hr.
  apply list_elem_of_In in Hr. apply numbers_search_rows in Hr.
  destruct Hr as (_ & Hwhere). unfold search_conditions in Hwhere.
  rewrite Harea in Hwhere. cbn [Js.truthy Js.toString] in Hwhere.
  destruct (String.eqb area_code "") eqn:Hempty.
  - apply String.eqb_eq in Hempty. subst area_code. apply prefix_empty.
  - cbn [negb] in Hwhere. rewrite !where_all_app in Hwhere.
    apply andb_true_iff in Hwhere. destruct Hwhere as (_ & Hwhere).
    apply andb_true_iff in Hwhere. destruct Hwhere as (_ & Hlike).
    unfold where_all in Hlike. simpl in Hlike.
    rewrite andb_true_r in Hlike. unfold Sql.like in Hlike.
    rewrite (c_string_literal area_code Hlit) in Hlike.
    apply prefix_c_string. now apply like_literal_prefix.
Qed.

(** ** Admin listing *)

Lemma filter_where_none {R : Type} (l : list R) :
  List.filter (where_all []) l = l.
Proof.
  induction l as [| x l IH]; simpl; [reflexivity | now rewrite IH].
Qed.

(** The first row of [ORDER BY key DESC]: the earliest row of the scan with
    the greatest key. *)
Lemma order_by_desc_head {R : Type} (key : R -> Z) (l : list R) :
  l <> [] ->
  exists r rest before after,
    Sql.order_by_desc key l = r :: rest /\
    l = before ++ r :: after /\
    Forall (fun x => key x < key r) before /\
    Forall (fun x => key x <= key r) after.
Proof.
  induction l as [| a l IH]; intros Hne; [congruence |].
  destruct l as [| b l].
  - exists a, [], [], []. repeat split; constructor.
  - destruct IH as (h & rest & before & after & Hsort & Hl & Hbefore & Hafter);
      [discriminate |].
    change (Sql.order_by_desc key (a :: b :: l))
      with (Sql.insert_desc key a (Sql.order_by_desc key (b :: l))).
    rewrite Hsort. cbn [Sql.insert_desc].
    destruct (key h <=? key a) eqn:Hcmp.
    + apply Z.leb_le in Hcmp.
      exists a, (h :: rest), [], (b :: l). repeat split; [constructor |].
      rewrite Hl. apply Forall_app. split.
      * eapply Forall_impl; [exact Hbefore |]. simpl. intros; lia.
      * constructor; [exact Hcmp |].
        eapply Forall_impl; [exact Hafter |]. simpl. intros; lia.
    + apply Z.leb_gt in Hcmp.
      exists h, (Sql.insert_desc key a rest), (a :: before), after.
      repeat split; [now rewrite Hl | | assumption].
      constructor; assumption.
Qed.


Lemma get_api_admin_consultations_first_page
    (req_query : gmap string string) (e : env) (w : world) :
  req_query !! "status" = None ->
  req_query !! "limit" = Some "1" ->
  req_query !! "offset" = Some "0" ->
  db_fault e = false ->
  get_api_admin_consultations req_query e w =
  (Response 200
     (Consultations
        (take 1 (Sql.order_by_desc c_created_at
                   (Sql.rows (consultations (w_db w)))))), w).
Proof.
  intros Hstatus Hlimit Hoffset Hfault.
  unfold get_api_admin_consultations, bind, db_all.
  rewrite Hstatus, Hlimit, Hoffset, Hfault.
  cbn [Js.truthy Js.with_default].
  change (Js.parseInt "1") with (Js.Num 1).
  change (Js.parseInt "0") with (Js.Num 0).
  unfold select_consultations. rewrite filter_where_none.
  unfold Sql.limit_offset, Sql.limit, Sql.offset.
  change (Sql.bind_integer (Js.Num 1)) with (Some 1).
  change (Sql.bind_integer (Js.Num 0)) with (Some 0).
  cbn [Z.ltb Z.compare]. now rewrite take_rows_take, drop_rows_drop.
Qed.

(** C6 (amended). On a store with more than one consultation the listing
    with limit=1 and offset=0 returns exactly one row, and it is a row
    with the greatest creation timestamp.  It is the most recently created
    consultation whenever that one's timestamp is later than every other
    row's. *)
Theorem admin_listing_first_page (req_query : gmap string string)
    (e : env) (w : world) :
  req_query !! "status" = None ->
  req_query !! "limit" = Some "1" ->
  req_query !! "offset" = Some "0" ->
  db_fault e = false ->
  (1 < length (Sql.rows (consultations (w_db w))))%nat ->
  exists r : consultation,
    fst (get_api_admin_consultations req_query e w) =
      Response 200 (Consultations [r]) /\
    In r (Sql.rows (consultations (w_db w))) /\
    (forall r', In r' (Sql.rows (consultations (w_db w))) ->
                c_created_at r' <= c_created_at r) /\
    (forall earlier newest,
       Sql.rows (consultations (w_db w)) = earlier ++ [newest] ->
       Forall (fun r' => c_created_at r' < c_created_at newest) earlier ->
       r = newest).
Proof.
  intros Hstatus Hlimit Hoffset Hfault Hmany.
  rewrite get_api_admin_consultations_first_page by assumption.
  destruct (order_by_desc_head c_created_at (Sql.rows (consultations (w_db w))))
    as (r & rest & before & after & Hsort & Hrows & Hbefore & Hafter).
  { intros Hnil. rewrite Hnil in Hmany. simpl in Hmany. lia. }
  rewrite Hsort. cbn [fst take firstn]. exists r.
  assert (Hin : In r (Sql.rows (consultations (w_db w)))).
  { rewrite Hrows. apply in_or_app. right. now left. }
  assert (Hmax : forall r', In r' (Sql.rows (consultations (w_db w))) ->
                            c_created_at r' <= c_created_at r).
  { intros r' Hr'. rewrite Hrows in Hr'. apply in_app_or in Hr'.
    destruct Hr' as [Hb | [<- | Ha]].
    - rewrite Forall_forall in Hbefore.
      apply list_elem_of_In in Hb. specialize (Hbefore r' Hb). lia.
    - lia.
    - rewrite Forall_forall in Hafter.
      apply list_elem_of_In in Ha. now apply Hafter. }
  split; [reflexivity |]. split; [exact Hin |]. split; [exact Hmax |].
  intros earlier newest Hsplit Hlater.
  rewrite Hsplit in Hin, Hmax. apply in_app_or in Hin.
  destruct Hin as [He | [<- | []]]; [| reflexivity].
  rewrite Forall_forall in Hlater.
  apply list_elem_of_In in He. specialize (Hlater r He).
  assert (c_created_at newest <= c_created_at r)
    by (apply Hmax; apply in_or_app; right; now left).
  lia.
Qed.

(** ** The schema invariant is kept by every handler *)

Lemma post_api_consultation_wf (req_body : gmap string string)
    (e : env) (w : world) :
  wf_database (w_db w) ->
  wf_database (w_db (snd (post_api_consultation isEmail req_body e w))).
Proof.
  intros Hwf.
  destruct (validationResult (consultationValidation isEmail) req_body)
    as [| err errs] eqn:Hv.
  - destruct (db_fault e) eqn:Hfault.
    + now rewrite (post_api_consultation_fault_run req_body e w Hv Hfault).
    + destruct (consultation_valid_fields req_body Hv)
        as (rt & n & em & p & b & Hrt & Hn & Hem & Hp & Hb & _).
      rewrite (post_api_consultation_ok_run req_body e w rt n em p b)
        by assumption.
      cbn [snd w_db].
      apply (insert_consultation_wf (Some rt) (Some n) (Some em) (Some p)
               (Js.or_else (req_body !! "anniversary") None)
               (Js.or_else (req_body !! "preferences") (Some ""))
               (Some b) (now e) (w_db w)); [assumption | reflexivity].
  - now rewrite post_api_consultation_invalid_run by (rewrite Hv; discriminate).
Qed.

Lemma post_api_newsletter_wf (req_body : gmap string string)
    (e : env) (w : world) :
  wf_database (w_db w) ->
  wf_database (w_db (snd (post_api_newsletter isEmail req_body e w))).
Proof.
  intros Hwf.
  destruct (validationResult (newsletterValidation isEmail) req_body)
    as [| err errs] eqn:Hv.
  - destruct (db_fault e) eqn:Hfault.
    + now rewrite (post_api_newsletter_fault_run req_body e w Hv Hfault).
    + assert (Hmail : exists em, req_body !! "email" = Some em /\
                                 isEmail em = true).
      { apply isEmail_present.
        apply (validationResult_nil _ req_body
                 (Body "email" isEmail "Valid email is required") Hv).
        simpl; tauto. }
      destruct Hmail as (em & Hem & Hok).
      destruct (post_api_newsletter_ok_run req_body e w em Hem Hok Hfault)
        as (db' & Hins & ->).
      cbn [snd w_db]. eapply insert_or_ignore_subscriber_wf; eassumption.
  - now rewrite post_api_newsletter_invalid_run by (rewrite Hv; discriminate).
Qed.

Lemma get_api_numbers_search_db (req_query : gmap string string)
    (e : env) (w : world) :
  w_db (snd (get_api_numbers_search req_query e w)) = w_db w.
Proof.
  rewrite get_api_numbers_search_run.
  destruct (db_fault e); [reflexivity |].
  destruct (select_phone_numbers _ _ _); reflexivity.
Qed.

Lemma get_api_admin_consultations_db (req_query : gmap string string)
    (e : env) (w : world) :
  w_db (snd (get_api_admin_consultations req_query e w)) = w_db w.
Proof.
  unfold get_api_admin_consultations, bind, db_all.
  destruct (db_fault e); [reflexivity |].
  destruct (select_consultations _ _ _ _); reflexivity.
Qed.

(** ** One request at a time *)

Lemma get_api_admin_consultations_run (req_query : gmap string string)
    (e : env) (w : world) :
  get_api_admin_consultations req_query e w =
  if db_fault e
  then (Response 500 (Failure "Database error"),
        after_database_error w "Database error:")
  else
    match select_consultations (listing_conditions req_query)
            (Js.parseInt (Js.with_default (req_query !! "limit") "50"))
            (Js.parseInt (Js.with_default (req_query !! "offset") "0"))
            (w_db w) with
    | Sql.Ok rows => (Response 200 (Consultations rows), w)
    | Sql.Error _ =>
        (Response 500 (Failure "Database error"),
         after_database_error w "Database error:")
    end.
Proof.
  unfold get_api_admin_consultations, listing_conditions, bind, db_all.
  destruct (db_fault e); [reflexivity |].
  destruct (select_consultations _ _ _ _); reflexivity.
Qed.

(** What a served request can have done: nothing to the store and the
    outbox; or stored one consultation and attempted its two mails; or run
    the subscriber insert and attempted the welcome mail. *)
Lemma serve_step (rq : request) (e : env) (w : world) :
  (w_db (snd (serve isEmail rq e w)) = w_db w /\
   w_outbox (snd (serve isEmail rq e w)) = w_outbox w /\
   ((status (fst (serve isEmail rq e w)) = 400 /\
     exists err errs,
       json (fst (serve isEmail rq e w)) = ValidationErrors (err :: errs)) \/
    fst (serve isEmail rq e w) = Response 500 (Failure "Database error") \/
    (exists l, fst (serve isEmail rq e w) = Response 200 (Numbers l)) \/
    (exists l, fst (serve isEmail rq e w) = Response 200 (Consultations l)))) \/
  (exists req_body rt n em p b,
     rq = PostConsultation req_body /\
     validationResult (consultationValidation isEmail) req_body = [] /\
     db_fault e = false /\
     req_body !! "relationshipType" = Some rt /\
     req_body !! "names" = Some n /\
     req_body !! "email" = Some em /\
     req_body !! "phone" = Some p /\
     req_body !! "budget" = Some b) \/
  (exists req_body em,
     rq = PostNewsletter req_body /\
     req_body !! "email" = Some em /\ isEmail em = true /\
     db_fault e = false).
Proof.
  destruct rq as [req_body | req_query | req_body | req_query]; cbn [serve].
  - destruct (validationResult (consultationValidation isEmail) req_body)
      as [| err errs] eqn:Hv.
    + destruct (db_fault e) eqn:Hfault.
      * left. rewrite (post_api_consultation_fault_run req_body e w Hv Hfault).
        cbn [fst snd w_db w_outbox]. auto.
      * right. left.
        destruct (consultation_valid_fields req_body Hv)
          as (rt & n & em & p & b & Hrt & Hn & Hem & Hp & Hb & _).
        exists req_body, rt, n, em, p, b. auto 10.
    + left. rewrite post_api_consultation_invalid_run
        by (rewrite Hv; discriminate).
      rewrite Hv. cbn [fst snd status json]. eauto 10.
  - left. rewrite get_api_numbers_search_run.
    destruct (db_fault e); [cbn [fst snd w_db w_outbox]; auto |].
    destruct (select_phone_numbers _ _ _);
      cbn [fst snd w_db w_outbox]; eauto 10.
  - destruct (validationResult (newsletterValidation isEmail) req_body)
      as [| err errs] eqn:Hv.
    + destruct (db_fault e) eqn:Hfault.
      * left. rewrite (post_api_newsletter_fault_run req_body e w Hv Hfault).
        cbn [fst snd w_db w_outbox]. auto.
      * right. right.
        assert (Hmail : exists em, req_body !! "email" = Some em /\
                                   isEmail em = true).
        { apply isEmail_present.
          apply (validationResult_nil _ req_body
                   (Body "email" isEmail "Valid email is required") Hv).
          simpl; tauto. }
        destruct Hmail as (em & Hem & Hok). exists req_body, em. auto.
    + left. rewrite post_api_newsletter_invalid_run
        by (rewrite Hv; discriminate).
      rewrite Hv. cbn [fst snd status json]. eauto 10.
  - left. rewrite get_api_admin_consultations_run.
    destruct (db_fault e);
      [unfold after_database_error; cbn [fst snd w_db w_outbox]; auto |].
    destruct (select_consultations _ _ _ _);
      unfold after_database_error; cbn [fst snd w_db w_outbox]; eauto 10.
Qed.

Lemma insert_or_ignore_subscriber_elsewhere (email source : Js.value)
    (t : Z) (db db' : database) :
  insert_or_ignore_subscriber email source t db = Sql.Ok db' ->
  consultations db' = consultations db /\
  customers db' = customers db /\
  phone_numbers db' = phone_numbers db /\
  orders db' = orders db /\
  exists added, Sql.rows (email_subscribers db') =
                Sql.rows (email_subscribers db) ++ added.
Proof.
  unfold insert_or_ignore_subscriber. intros H.
  destruct email as [em |].
  - destruct (existsb (has_email em) (Sql.rows (email_subscribers db)));
      injection H as <-; cbn; repeat split;
      eexists; first [symmetry; apply app_nil_r | reflexivity].
  - injection H as <-. cbn. repeat split.
    exists []. symmetry; apply app_nil_r.
Qed.

(** X1. A request that is not answered with success has changed nothing:
    the store is what it was and no mail was attempted. *)
Theorem unsuccessful_request_changes_nothing (rq : request) (e : env)
    (w : world) :
  success (fst (serve isEmail rq e w)) = false ->
  w_db (snd (serve isEmail rq e w)) = w_db w /\
  w_outbox (snd (serve isEmail rq e w)) = w_outbox w.
Proof.
  intros Hfail.
  destruct (serve_step rq e w)
    as [(Hdb & Hout & _)
       | [(req_body & rt & n & em & p & b & -> & Hv & Hf & Hrt & Hn & Hem & Hp & Hb)
         | (req_body & em & -> & Hem & Hok & Hf)]].
  - auto.
  - cbn [serve] in Hfail.
    rewrite (post_api_consultation_ok_run req_body e w rt n em p b) in Hfail
      by assumption.
    discriminate Hfail.
  - cbn [serve] in Hfail.
    destruct (post_api_newsletter_ok_run req_body e w em Hem Hok Hf)
      as (db' & _ & Hrun).
    rewrite Hrun in Hfail. discriminate Hfail.
Qed.

(** X2. On each of the four routes, when the engine fails the statement
    of a request that got past validation, the answer is 500 with the
    fixed message 'Database error'; nothing is stored, no mail is
    attempted, and the failure shows as one error line on the console. *)
Theorem store_failure_is_answered_500 (rq : request) (e : env) (w : world) :
  db_fault e = true ->
  status (fst (serve isEmail rq e w)) <> 400 ->
  fst (serve isEmail rq e w) = Response 500 (Failure "Database error") /\
  w_db (snd (serve isEmail rq e w)) = w_db w /\
  w_outbox (snd (serve isEmail rq e w)) = w_outbox w /\
  exists text,
    w_console (snd (serve isEmail rq e w)) =
    w_console w ++ [ConsoleError text].
Proof.
  intros Hfault Hvalid.
  destruct rq as [req_body | req_query | req_body | req_query];
    cbn [serve] in *.
  - destruct (validationResult (consultationValidation isEmail) req_body)
      as [| err errs] eqn:Hv.
    + rewrite (post_api_consultation_fault_run req_body e w Hv Hfault).
      cbn [fst snd w_db w_outbox w_console]. eauto.
    + rewrite post_api_consultation_invalid_run in Hvalid
        by (rewrite Hv; discriminate).
      now contradiction Hvalid.
  - rewrite get_api_numbers_search_run, Hfault.
    cbn [fst snd w_db w_outbox w_console]. eauto.
  - destruct (validationResult (newsletterValidation isEmail) req_body)
      as [| err errs] eqn:Hv.
    + rewrite (post_api_newsletter_fault_run req_body e w Hv Hfault).
      cbn [fst snd w_db w_outbox w_console]. eauto.
    + rewrite post_api_newsletter_invalid_run in Hvalid
        by (rewrite Hv; discriminate).
      now contradiction Hvalid.
  - rewrite get_api_admin_consultations_run, Hfault.
    unfold after_database_error.
    cbn [fst snd w_db w_outbox w_console]. eauto.
Qed.

Lemma serve_wf (rq : request) (e : env) (w : world) :
  wf_database (w_db w) -> wf_database (w_db (snd (serve isEmail rq e w))).
Proof.
  destruct rq; cbn [serve].
  - apply post_api_consultation_wf.
  - now rewrite get_api_numbers_search_db.
  - apply post_api_newsletter_wf.
  - now rewrite get_api_admin_consultations_db.
Qed.

Lemma serve_all_cons (rq : request) (e : env) (rest : list (request * env))
    (w : world) :
  serve_all isEmail ((rq, e) :: rest) w =
  (fst (serve isEmail rq e w) ::
     fst (serve_all isEmail rest (snd (serve isEmail rq e w))),
   snd (serve_all isEmail rest (snd (serve isEmail rq e w)))).
Proof.
  cbn [serve_all]. destruct (serve isEmail rq e w) as [r w'].
  cbn [fst snd]. now destruct (serve_all isEmail rest w').
Qed.

Lemma increasing_NoDup (l : list Z) : StronglySorted Z.lt l -> NoDup l.
Proof.
  induction 1 as [| a l _ IH Ha]; constructor; [| exact IH].
  intros Hin. rewrite Forall_forall in Ha. specialize (Ha a Hin). lia.
Qed.

(** X3. Whatever requests are served, in whatever outside worlds, the
    store keeps its schema constraints: consultation and subscriber rows
    lie in increasing rowid order below the AUTOINCREMENT counters, and no
    two subscriber rows share an email. *)
Theorem served_store_keeps_schema (rqs : list (request * env)) (w : world) :
  wf_database (w_db w) ->
  wf_database (w_db (snd (serve_all isEmail rqs w))) /\
  NoDup (map c_id (Sql.rows (consultations
                               (w_db (snd (serve_all isEmail rqs w)))))) /\
  NoDup (map s_email (Sql.rows (email_subscribers
                                  (w_db (snd (serve_all isEmail rqs w)))))).
Proof.
  intros Hwf.
  assert (Hfinal : wf_database (w_db (snd (serve_all isEmail rqs w)))).
  { revert w Hwf. induction rqs as [| [rq e] rest IH]; intros w Hwf.
    - exact Hwf.
    - rewrite serve_all_cons. cbn [snd]. apply IH. now apply serve_wf. }
  split; [exact Hfinal |].
  destruct Hfinal as ((Hsorted & _) & _ & Hemails).
  split; [| exact Hemails].
  now apply increasing_NoDup.
Qed.

(** The whole effect of one served request on the store and the outbox. *)
Lemma serve_effect (rq : request) (e : env) (w : world) :
  let r := fst (serve isEmail rq e w) in
  let w' := snd (serve isEmail rq e w) in
  exists stored subscribed mails,
    Sql.rows (consultations (w_db w')) =
      Sql.rows (consultations (w_db w)) ++ stored /\
    length stored = (if is_submitted r then 1 else 0)%nat /\
    Sql.rows (email_subscribers (w_db w')) =
      Sql.rows (email_subscribers (w_db w)) ++ subscribed /\
    customers (w_db w') = customers (w_db w) /\
    phone_numbers (w_db w') = phone_numbers (w_db w) /\
    orders (w_db w') = orders (w_db w) /\
    w_outbox w' = w_outbox w ++ mails /\
    length mails =
      (if is_submitted r then 2 else if is_subscribed r then 1 else 0)%nat /\
    Sql.seq (consultations (w_db w)) <= Sql.seq (consultations (w_db w')) /\
    (forall id, submitted_id r = Some id ->
       Sql.seq (consultations (w_db w)) < id /\
       id = Sql.seq (consultations (w_db w'))).
Proof.
  cbv zeta.
  destruct (serve_step rq e w)
    as [(Hdb & Hout & Hshape)
       | [(req_body & rt & n & em & p & b & -> & Hv & Hf & Hrt & Hn & Hem & Hp & Hb)
         | (req_body & em & -> & Hem & Hok & Hf)]].
  - exists [], [], []. rewrite Hdb, Hout, !app_nil_r.
    assert (Hnone : is_submitted (fst (serve isEmail rq e w)) = false /\
                    is_subscribed (fst (serve isEmail rq e w)) = false /\
                    submitted_id (fst (serve isEmail rq e w)) = None).
    { unfold is_submitted, is_subscribed, submitted_id.
      destruct Hshape as [(_ & err & errs & ->) | [-> | [(l & ->) | (l & ->)]]];
        auto. }
    destruct Hnone as (-> & -> & ->).
    repeat split; try reflexivity; try lia; discriminate.
  - cbn [serve].
    rewrite (post_api_consultation_ok_run req_body e w rt n em p b)
      by assumption.
    cbn [fst snd w_db w_outbox consultations email_subscribers customers
         phone_numbers orders Sql.rows Sql.seq is_submitted submitted_id json].
    pose proof (next_rowid_above_seq c_id (consultations (w_db w))) as Habove.
    eexists _, [], _.
    rewrite (app_nil_r (Sql.rows (email_subscribers (w_db w)))).
    do 9 (split; [first [reflexivity | lia] |]).
    intros id Hid. injection Hid as <-. split; [lia | reflexivity].
  - cbn [serve].
    destruct (post_api_newsletter_ok_run req_body e w em Hem Hok Hf)
      as (db' & Hins & ->).
    apply insert_or_ignore_subscriber_elsewhere in Hins.
    destruct Hins as (Hc & Hcu & Hp & Ho & added & Hrows).
    cbn [fst snd w_db w_outbox is_submitted is_subscribed submitted_id json].
    exists [], added, [welcome_mailOptions e (Some em)].
    rewrite Hc, Hcu, Hp, Ho, Hrows, app_nil_r.
    repeat split; try reflexivity; try lia; discriminate.
Qed.

(** X4. Serving requests only ever appends consultation and subscriber
    rows: the rows that were there stay, in place and unchanged; and no
    request writes to customers, phone_numbers or orders. *)
Theorem served_store_only_grows (rqs : list (request * env)) (w : world) :
  let w' := snd (serve_all isEmail rqs w) in
  Sql.rows (consultations (w_db w)) `prefix_of`
    Sql.rows (consultations (w_db w')) /\
  Sql.rows (email_subscribers (w_db w)) `prefix_of`
    Sql.rows (email_subscribers (w_db w')) /\
  customers (w_db w') = customers (w_db w) /\
  phone_numbers (w_db w') = phone_numbers (w_db w) /\
  orders (w_db w') = orders (w_db w).
Proof.
  cbv zeta. revert w. induction rqs as [| [rq e] rest IH]; intros w.
  - cbn [serve_all snd]. repeat split; reflexivity.
  - rewrite serve_all_cons. cbn [snd].
    destruct (serve_effect rq e w)
      as (stored & subscribed & mails & Hc & _ & Hs & Hcu & Hp & Ho & _).
    destruct (IH (snd (serve isEmail rq e w)))
      as (IHc & IHs & IHcu & IHp & IHo).
    rewrite Hc in IHc. rewrite Hs in IHs.
    rewrite IHcu, IHp, IHo, Hcu, Hp, Ho.
    repeat split.
    + etransitivity; [| exact IHc]. now apply prefix_app_r.
    + etransitivity; [| exact IHs]. now apply prefix_app_r.
Qed.

Lemma serve_all_seq (rqs : list (request * env)) (w : world) :
  Sql.seq (consultations (w_db w)) <=
  Sql.seq (consultations (w_db (snd (serve_all isEmail rqs w)))).
Proof.
  revert w. induction rqs as [| [rq e] rest IH]; intros w.
  - cbn [serve_all snd]. lia.
  - rewrite serve_all_cons. cbn [snd].
    destruct (serve_effect rq e w) as (? & ? & ? & Heff).
    destruct Heff as (_ & _ & _ & _ & _ & _ & _ & _ & Hseq & _).
    specialize (IH (snd (serve isEmail rq e w))). lia.
Qed.

(** X5. Consultation identifiers only go up: of two submissions that both
    succeed, the later one gets the greater identifier, whatever was
    served in between. *)
Theorem consultation_ids_increase (first_body second_body : gmap string string)
    (e1 e2 : env) (between : list (request * env)) (w : world) (id1 id2 : Z) :
  let first := post_api_consultation isEmail first_body e1 w in
  let later := serve_all isEmail between (snd first) in
  let second := post_api_consultation isEmail second_body e2 (snd later) in
  submitted_id (fst first) = Some id1 ->
  submitted_id (fst second) = Some id2 ->
  id1 < id2.
Proof.
  intros first later second H1 H2. subst first later second.
  destruct (serve_effect (PostConsultation first_body) e1 w)
    as (? & ? & ? & Heff1).
  destruct Heff1 as (_ & _ & _ & _ & _ & _ & _ & _ & _ & Hid1).
  cbn [serve] in Hid1. destruct (Hid1 id1 H1) as (_ & Hseq1).
  set (w1 := snd (post_api_consultation isEmail first_body e1 w)) in *.
  pose proof (serve_all_seq between w1) as Hmono.
  set (w2 := snd (serve_all isEmail between w1)) in *.
  destruct (serve_effect (PostConsultation second_body) e2 w2)
    as (? & ? & ? & Heff2).
  destruct Heff2 as (_ & _ & _ & _ & _ & _ & _ & _ & _ & Hid2).
  cbn [serve] in Hid2. destruct (Hid2 id2 H2) as (Habove & _).
  lia.
Qed.

(** X6. The store holds one consultation row per success answer: after any
    run of requests, the number of consultation rows has grown by the
    number of answers that carry a consultation identifier. *)
Theorem consultation_rows_match_answers (rqs : list (request * env))
    (w : world) :
  length (Sql.rows (consultations (w_db (snd (serve_all isEmail rqs w))))) =
  (length (Sql.rows (consultations (w_db w))) +
   length (List.filter is_submitted (fst (serve_all isEmail rqs w))))%nat.
Proof.
  revert w. induction rqs as [| [rq e] rest IH]; intros w.
  - cbn [serve_all fst snd List.filter length]. lia.
  - rewrite serve_all_cons. cbn [fst snd List.filter].
    rewrite IH.
    destruct (serve_effect rq e w) as (stored & ? & ? & Hc & Hlen & _).
    rewrite Hc, List.length_app, Hlen.
    destruct (is_submitted (fst (serve isEmail rq e w))); cbn [length]; lia.
Qed.

(** X7. Mail is attempted for stored requests only: after any run, the
    number of mails handed to the transport is two per accepted
    consultation plus one per accepted newsletter signup. *)
Theorem mails_match_answers (rqs : list (request * env)) (w : world) :
  length (w_outbox (snd (serve_all isEmail rqs w))) =
  (length (w_outbox w) +
   2 * length (List.filter is_submitted (fst (serve_all isEmail rqs w))) +
   length (List.filter is_subscribed (fst (serve_all isEmail rqs w))))%nat.
Proof.
  revert w. induction rqs as [| [rq e] rest IH]; intros w.
  - cbn [serve_all fst snd List.filter length]. lia.
  - rewrite serve_all_cons. cbn [fst snd List.filter].
    rewrite IH.
    destruct (serve_effect rq e w) as (? & ? & mails & Heff).
    destruct Heff as (_ & _ & _ & _ & _ & _ & Hout & Hlen & _).
    rewrite Hout, List.length_app, Hlen.
    assert (Hexcl : is_submitted (fst (serve isEmail rq e w)) = true ->
                    is_subscribed (fst (serve isEmail rq e w)) = false).
    { unfold is_submitted, is_subscribed.
      destruct (json (fst (serve isEmail rq e w))); auto; discriminate. }
    destruct (is_submitted (fst (serve isEmail rq e w))) eqn:Hsub.
    + rewrite (Hexcl eq_refl). cbn [length]. lia.
    + destruct (is_subscribed (fst (serve isEmail rq e w))); cbn [length]; lia.
Qed.

(** ** More on the consultation handler *)

(** X8. An accepted consultation attempts exactly two mails, in this order:
    the confirmation, to the submitted address and with the submitted
    names, then the admin alert, to [ADMIN_EMAIL] or, when that is unset or
    empty, to admin@connectpair.co.uk.  Both carry the identifier of the
    response, and both are sent from [SMTP_FROM] or, when that is unset or
    empty, from hello@connectpair.co.uk. *)
Theorem consultation_mails (req_body : gmap string string) (e : env)
    (w : world) :
  validationResult (consultationValidation isEmail) req_body = [] ->
  db_fault e = false ->
  exists id : Z,
    submitted_id (fst (post_api_consultation isEmail req_body e w)) = Some id /\
    w_outbox (snd (post_api_consultation isEmail req_body e w)) =
      w_outbox w ++
      [MailOptions (from_address e) (req_body !! "email")
                   (ConfirmationTemplate (req_body !! "names") id);
       MailOptions (from_address e) (admin_address e)
                   (AdminAlertTemplate (alert_data id req_body))] /\
    (forall a, SMTP_FROM (process_env_of e) = Some a -> a <> "" ->
               from_address e = a) /\
    (SMTP_FROM (process_env_of e) = None \/
     SMTP_FROM (process_env_of e) = Some "" ->
     from_address e = "hello@connectpair.co.uk") /\
    (forall a, ADMIN_EMAIL (process_env_of e) = Some a -> a <> "" ->
               admin_address e = Some a) /\
    (ADMIN_EMAIL (process_env_of e) = None \/
     ADMIN_EMAIL (process_env_of e) = Some "" ->
     admin_address e = Some "admin@connectpair.co.uk").
Proof.
  intros Hv Hf.
  destruct (consultation_valid_fields req_body Hv)
    as (rt & n & em & p & b & Hrt & Hn & Hem & Hp & Hb & _).
  rewrite (post_api_consultation_ok_run req_body e w rt n em p b) by assumption.
  cbn [fst snd w_outbox submitted_id json].
  eexists. split; [reflexivity |]. split.
  { unfold confirmation_mailOptions, admin_mailOptions.
    now rewrite Hem, Hn. }
  unfold from_address, admin_address, Js.or_else, Js.truthy.
  repeat split.
  - intros a -> Ha. apply String.eqb_neq in Ha. now rewrite Ha.
  - intros [-> | ->]; reflexivity.
  - intros a -> Ha. apply String.eqb_neq in Ha. now rewrite Ha.
  - intros [-> | ->]; reflexivity.
Qed.

(** X9. The optional fields of an accepted consultation.  The
    anniversary column is declared DATE: a non-empty anniversary that is
    not a well-formed number (a date such as 2020-05-17) is stored as the
    submitted text, one that is a well-formed number is stored as that
    number, and an empty one is stored as NULL like a missing one.
    Preferences are stored as the submitted text and are never NULL, a
    missing one being stored as the empty string. *)
Theorem consultation_optional_fields (req_body : gmap string string)
    (e : env) (w : world) :
  validationResult (consultationValidation isEmail) req_body = [] ->
  db_fault e = false ->
  exists row : consultation,
    Sql.rows (consultations
                (w_db (snd (post_api_consultation isEmail req_body e w)))) =
      Sql.rows (consultations (w_db w)) ++ [row] /\
    (forall a, req_body !! "anniversary" = Some a -> a <> "" ->
               Sql.looks_numeric a = false ->
               c_anniversary row = Some (Sql.Text a)) /\
    (forall a, req_body !! "anniversary" = Some a -> a <> "" ->
               Sql.looks_numeric a = true ->
               c_anniversary row = Some (Sql.Numeric a)) /\
    (req_body !! "anniversary" = Some "" -> c_anniversary row = None) /\
    (req_body !! "anniversary" = None -> c_anniversary row = None) /\
    c_preferences row =
      Some (Js.toString (req_body !! "preferences")).
Proof.
  intros Hv Hf.
  destruct (consultation_valid_fields req_body Hv)
    as (rt & n & em & p & b & Hrt & Hn & Hem & Hp & Hb & _).
  rewrite (post_api_consultation_ok_run req_body e w rt n em p b) by assumption.
  cbn [fst snd w_db consultations Sql.rows].
  eexists. split; [reflexivity |].
  unfold submitted_row. cbn [c_anniversary c_preferences].
  unfold Js.or_else, Js.truthy, Sql.numeric_affinity. repeat split.
  - intros a -> Ha Hnum. apply String.eqb_neq in Ha. rewrite Ha.
    cbn. now rewrite Hnum.
  - intros a -> Ha Hnum. apply String.eqb_neq in Ha. rewrite Ha.
    cbn. now rewrite Hnum.
  - now intros ->.
  - now intros ->.
  - destruct (req_body !! "preferences") as [s |]; [| reflexivity].
    cbn [Js.toString]. destruct (String.eqb s "") eqn:Hs; [| reflexivity].
    apply String.eqb_eq in Hs. now subst.
Qed.

(** X10. The validation errors of a consultation come in the fixed order
    relationshipType, names, email, phone, budget, at most one per field;
    each reports the submitted value of its field and the location
    'body'. *)
Theorem validation_errors_in_field_order (req_body : gmap string string) :
  map ve_path (validationResult (consultationValidation isEmail) req_body)
    `sublist_of` required_fields /\
  Forall (fun err => ve_value err = req_body !! ve_path err /\
                     ve_location err = "body")
         (validationResult (consultationValidation isEmail) req_body).
Proof.
  assert (Hgen : forall chains,
            map ve_path (validationResult chains req_body)
              `sublist_of` map vc_path chains /\
            Forall (fun err => ve_value err = req_body !! ve_path err /\
                               ve_location err = "body")
                   (validationResult chains req_body)).
  { induction chains as [| c chains (IHs & IHf)].
    - split; constructor.
    - unfold validationResult in *. cbn [flat_map]. unfold run_chain at 1 3.
      destruct (vc_validator c (Js.toString (req_body !! vc_path c)));
        cbn [app map vc_path ve_path].
      + split; [now apply sublist_cons | exact IHf].
      + split; [now apply sublist_skip |].
        constructor; [split; reflexivity | exact IHf]. }
  exact (Hgen (consultationValidation isEmail)).
Qed.

(** ** More on the number search *)

(** X11. An empty [area_code] or [pattern] is no filter at all: the search
    answers as if the key were not there. *)
Theorem numbers_search_ignores_empty_filters (req_query : gmap string string)
    (e : env) (w : world) :
  get_api_numbers_search (<["area_code" := ""]> req_query) e w =
    get_api_numbers_search (delete "area_code" req_query) e w /\
  get_api_numbers_search (<["pattern" := ""]> req_query) e w =
    get_api_numbers_search (delete "pattern" req_query) e w.
Proof.
  split; rewrite !get_api_numbers_search_run; unfold search_conditions.
  - rewrite lookup_insert_eq, lookup_delete_eq.
    rewrite !lookup_insert_ne, !lookup_delete_ne by discriminate.
    reflexivity.
  - rewrite lookup_insert_eq, lookup_delete_eq.
    rewrite !lookup_insert_ne, !lookup_delete_ne by discriminate.
    reflexivity.
Qed.

(** X12. Whatever the query, every row a search returns is a stored row
    with status 'available'; with a non-empty [pattern] its pattern type is
    exactly that text. *)
Theorem numbers_search_filters (req_query : gmap string string) (e : env)
    (w : world) (r : phone_number) :
  In r (numbers_of (fst (get_api_numbers_search req_query e w))) ->
  In r (Sql.rows (phone_numbers (w_db w))) /\
  p_status r = Some "available" /\
  (forall pattern, req_query !! "pattern" = Some pattern -> pattern <> "" ->
                   p_pattern_type r = Some pattern).
Proof.
  intros Hr. apply numbers_search_rows in Hr. destruct Hr as (Hin & Hwhere).
  split; [exact Hin |].
  unfold search_conditions in Hwhere. rewrite !where_all_app in Hwhere.
  apply andb_true_iff in Hwhere. destruct Hwhere as (Havail & Hrest).
  apply andb_true_iff in Hrest. destruct Hrest as (Hpattern & _).
  split.
  - unfold where_all in Havail. simpl in Havail.
    rewrite andb_true_r in Havail. now apply text_eq_true.
  - intros pattern Hp Hne. rewrite Hp in Hpattern.
    cbn [Js.truthy Js.toString] in Hpattern.
    apply String.eqb_neq in Hne. rewrite Hne in Hpattern.
    unfold where_all in Hpattern. simpl in Hpattern.
    rewrite andb_true_r in Hpattern. now apply text_eq_true.
Qed.


(** ** More on the admin listing *)

Lemma In_insert_desc {R : Type} (key : R -> Z) (x z : R) (l : list R) :
  In z (Sql.insert_desc key x l) <-> z = x \/ In z l.
Proof.
  induction l as [| y l IH]; cbn [Sql.insert_desc].
  - simpl. intuition auto.
  - destruct (key y <=? key x); simpl in *; intuition auto.
Qed.

Lemma In_order_by_desc {R : Type} (key : R -> Z) (z : R) (l : list R) :
  In z (Sql.order_by_desc key l) <-> In z l.
Proof.
  induction l as [| x l IH]; [reflexivity |].
  change (Sql.order_by_desc key (x :: l))
    with (Sql.insert_desc key x (Sql.order_by_desc key l)).
  rewrite In_insert_desc. simpl. intuition auto.
Qed.

Lemma insert_desc_sorted {R : Type} (key : R -> Z) (x : R) (l : list R) :
  StronglySorted (fun a b => key b <= key a) l ->
  StronglySorted (fun a b => key b <= key a) (Sql.insert_desc key x l).
Proof.
  induction 1 as [| y l Hl IH Hy]; cbn [Sql.insert_desc].
  - repeat constructor.
  - destruct (key y <=? key x) eqn:Hcmp.
    + apply Z.leb_le in Hcmp. constructor; [now constructor |].
      constructor; [exact Hcmp |].
      eapply Forall_impl; [exact Hy |]. simpl. intros; lia.
    + apply Z.leb_gt in Hcmp. constructor; [exact IH |].
      apply Forall_forall. intros z Hz. apply list_elem_of_In in Hz.
      apply In_insert_desc in Hz. destruct Hz as [-> | Hz]; [lia |].
      rewrite Forall_forall in Hy. apply Hy. now apply list_elem_of_In.
Qed.

Lemma order_by_desc_sorted {R : Type} (key : R -> Z) (l : list R) :
  StronglySorted (fun a b => key b <= key a) (Sql.order_by_desc key l).
Proof.
  induction l as [| x l IH]; [constructor |].
  change (Sql.order_by_desc key (x :: l))
    with (Sql.insert_desc key x (Sql.order_by_desc key l)).
  now apply insert_desc_sorted.
Qed.

Lemma sorted_drop {R : Type} (rel : R -> R -> Prop) (n : nat) (l : list R) :
  StronglySorted rel l -> StronglySorted rel (drop n l).
Proof.
  revert l. induction n as [| n IH]; intros l Hl; [exact Hl |].
  destruct l as [| x l]; [constructor |].
  inversion Hl; subst. now apply IH.
Qed.

Lemma sorted_take {R : Type} (rel : R -> R -> Prop) (n : nat) (l : list R) :
  StronglySorted rel l -> StronglySorted rel (take n l).
Proof.
  revert l. induction n as [| n IH]; intros l Hl; [constructor |].
  destruct l as [| x l]; [constructor |].
  inversion Hl as [| ? ? Hl' Hx]; subst. cbn [take firstn]. constructor.
  - now apply IH.
  - apply Forall_forall. intros z Hz. rewrite Forall_forall in Hx.
    apply Hx. apply list_elem_of_In. apply list_elem_of_In in Hz.
    rewrite <- (firstn_skipn n l). apply in_or_app. now left.
Qed.

Lemma offset_incl {R : Type} (n : Z) (l : list R) (r : R) :
  In r (Sql.offset n l) -> In r l.
Proof.
  unfold Sql.offset. rewrite drop_rows_drop. intros H.
  rewrite <- (firstn_skipn (Z.to_nat n) l). apply in_or_app. now right.
Qed.

(** X14. Whatever the query, the rows an admin listing returns are stored
    consultations in descending order of creation timestamp; with a
    non-empty [status] filter each of them has exactly that status. *)
Theorem admin_listing_sorted (req_query : gmap string string) (e : env)
    (w : world) :
  StronglySorted newer_first
    (consultations_of (fst (get_api_admin_consultations req_query e w))) /\
  (forall r,
     In r (consultations_of (fst (get_api_admin_consultations req_query e w))) ->
     In r (Sql.rows (consultations (w_db w))) /\
     (forall s, req_query !! "status" = Some s -> s <> "" ->
                c_status r = Some s)).
Proof.
  rewrite get_api_admin_consultations_run.
  destruct (db_fault e); [split; [constructor | intros r []] |].
  unfold select_consultations, Sql.limit_offset.
  destruct (Sql.bind_integer
              (Js.parseInt (Js.with_default (req_query !! "limit") "50")))
    as [n |]; [| split; [constructor | intros r []]].
  destruct (Sql.bind_integer
              (Js.parseInt (Js.with_default (req_query !! "offset") "0")))
    as [k |]; [| split; [constructor | intros r []]].
  cbn [fst consultations_of json]. split.
  - unfold Sql.limit, Sql.offset. rewrite take_rows_take, drop_rows_drop.
    pose proof (order_by_desc_sorted c_created_at
                  (List.filter (where_all (listing_conditions req_query))
                     (Sql.rows (consultations (w_db w))))) as Hsorted.
    destruct (n <? 0); [| apply sorted_take]; now apply sorted_drop.
  - intros r Hr. apply limit_incl, offset_incl, In_order_by_desc in Hr.
    apply filter_In in Hr. destruct Hr as (Hin & Hwhere).
    split; [exact Hin |]. intros s Hs Hne.
    unfold listing_conditions in Hwhere. rewrite Hs in Hwhere.
    cbn [Js.truthy Js.toString] in Hwhere.
    apply String.eqb_neq in Hne. rewrite Hne in Hwhere.
    unfold where_all in Hwhere. simpl in Hwhere.
    rewrite andb_true_r in Hwhere. now apply text_eq_true.
Qed.

(** X15. An empty [status] is no filter: the listing answers as if the key
    were not there. *)
Theorem admin_listing_ignores_empty_status (req_query : gmap string string)
    (e : env) (w : world) :
  get_api_admin_consultations (<["status" := ""]> req_query) e w =
  get_api_admin_consultations (delete "status" req_query) e w.
Proof.
  rewrite !get_api_admin_consultations_run. unfold listing_conditions.
  rewrite lookup_insert_eq, lookup_delete_eq.
  rewrite !lookup_insert_ne, !lookup_delete_ne by discriminate.
  reflexivity.
Qed.

Lemma take_then_next {R : Type} (n m : nat) (l : list R) :
  take n l ++ take m (drop n l) = take (n + m) l.
Proof.
  revert l. induction n as [| n IH]; intros l; [reflexivity |].
  destruct l as [| x l]; [now destruct m |].
  cbn [take firstn drop skipn Nat.add app]. now rewrite <- IH.
Qed.

Lemma page_rows (base : gmap string string) (limit offset : string)
    (n k : Z) (e : env) (w : world) :
  Js.parseInt limit = Js.Num n -> Js.parseInt offset = Js.Num k ->
  0 <= n < 9223372036854775808 -> 0 <= k < 9223372036854775808 ->
  db_fault e = false ->
  consultations_of
    (fst (get_api_admin_consultations (page_query base limit offset) e w)) =
  take (Z.to_nat n)
    (drop (Z.to_nat k)
       (Sql.order_by_desc c_created_at
          (List.filter (where_all (listing_conditions base))
             (Sql.rows (consultations (w_db w)))))).
Proof.
  intros Hn Hk Hnr Hkr Hf.
  rewrite get_api_admin_consultations_run, Hf.
  unfold page_query, listing_conditions.
  rewrite lookup_insert_eq.
  rewrite (lookup_insert_ne _ "limit" "offset") by discriminate.
  rewrite lookup_insert_eq.
  rewrite !(lookup_insert_ne _ _ "status") by discriminate.
  cbn [Js.with_default]. rewrite Hn, Hk.
  unfold select_consultations, Sql.limit_offset, Sql.limit, Sql.offset.
  cbn [Sql.bind_integer].
  assert (Hin : forall z, 0 <= z < 9223372036854775808 ->
            (-9223372036854775808 <? z) && (z <? 9223372036854775808) = true).
  { intros z Hz. apply andb_true_iff. split; apply Z.ltb_lt; lia. }
  rewrite (Hin n Hnr), (Hin k Hkr).
  assert (Hpos : (n <? 0) = false) by (apply Z.ltb_ge; lia).
  rewrite Hpos. now rewrite take_rows_take, drop_rows_drop.
Qed.

(** X16. Pages of the listing join up: on an unchanged store, the page of
    [n] rows from offset [k] followed by the page of [m] rows from offset
    [k + n] is the page of [n + m] rows from offset [k], as long as
    [n + m] and [k + n] stay below 2^63, the largest values the engine
    takes; no row is skipped or repeated at the seam. *)
Theorem admin_listing_pages_compose (base : gmap string string)
    (limit_n limit_m limit_nm offset_k offset_kn : string) (n m k : Z)
    (e : env) (w : world) :
  Js.parseInt limit_n = Js.Num n ->
  Js.parseInt limit_m = Js.Num m ->
  Js.parseInt limit_nm = Js.Num (n + m) ->
  Js.parseInt offset_k = Js.Num k ->
  Js.parseInt offset_kn = Js.Num (k + n) ->
  0 <= n -> 0 <= m -> 0 <= k ->
  n + m < 9223372036854775808 ->
  k + n < 9223372036854775808 ->
  db_fault e = false ->
  consultations_of
    (fst (get_api_admin_consultations (page_query base limit_n offset_k) e w)) ++
  consultations_of
    (fst (get_api_admin_consultations (page_query base limit_m offset_kn) e w)) =
  consultations_of
    (fst (get_api_admin_consultations (page_query base limit_nm offset_k) e w)).
Proof.
  intros Hn Hm Hnm Hk Hkn Hn0 Hm0 Hk0 Hnm63 Hkn63 Hf.
  rewrite (page_rows base limit_n offset_k n k) by (assumption || lia).
  rewrite (page_rows base limit_m offset_kn m (k + n)) by (assumption || lia).
  rewrite (page_rows base limit_nm offset_k (n + m) k) by (assumption || lia).
  rewrite !Z2Nat.inj_add by lia.
  rewrite <- drop_drop. apply take_then_next.
Qed.

(** ** More on the newsletter signup *)

(** X17. A signup without a well-formed email (missing, empty or
    malformed) is answered 400 with the single error 'Valid email is
    required' on [email]; nothing is stored, no welcome mail is attempted
    and nothing is logged. *)
Theorem newsletter_validation_failure (req_body : gmap string string)
    (e : env) (w : world) :
  req_body !! "email" = None \/
  isEmail (Js.toString (req_body !! "email")) = false ->
  post_api_newsletter isEmail req_body e w =
  (Response 400
     (ValidationErrors
        [ValidationError (req_body !! "email") "Valid email is required"
                         "email" "body"]), w).
Proof.
  intros Hbad.
  assert (Hmal : isEmail (Js.toString (req_body !! "email")) = false).
  { destruct Hbad as [-> | H]; [exact isEmail_empty | exact H]. }
  unfold post_api_newsletter, validationResult, newsletterValidation.
  cbn [flat_map]. unfold run_chain. cbn [vc_path vc_validator vc_message].
  rewrite Hmal. reflexivity.
Qed.


(** X19. The newsletter handler reads [email] and [source] and nothing
    else: two bodies that agree on these two keys produce the same
    response, store, mail and console output. *)
Theorem newsletter_reads_email_and_source_only
    (req_body req_body' : gmap string string) (e : env) (w : world) :
  req_body !! "email" = req_body' !! "email" ->
  req_body !! "source" = req_body' !! "source" ->
  post_api_newsletter isEmail req_body e w =
  post_api_newsletter isEmail req_body' e w.
Proof.
  intros Hemail Hsource.
  unfold post_api_newsletter, validationResult, newsletterValidation.
  cbn [flat_map]. unfold run_chain. cbn [vc_path vc_validator vc_message].
  now rewrite Hemail, Hsource.
Qed.

(** ** Start-up *)

Lemma create_table_keeps {R : Type} (fault : bool) (t : Sql.table R) :
  create_table_if_not_exists fault (Some t) = Some t.
Proof. now destruct fault. Qed.

Lemma create_table_again {R : Type} (fault : bool)
    (existing : option (Sql.table R)) :
  create_table_if_not_exists false
    (create_table_if_not_exists fault existing) =
  create_table_if_not_exists false existing.
Proof. now destruct fault, existing. Qed.

(** X20. Schema creation never touches data and can be repeated: a table
    that exists keeps its rows and counter even when statements fail;
    after a run without failures all five tables exist, so the store can
    be opened; running it again, after any earlier run, gives what one
    clean run gives; it logs one error line per failed statement; and on
    an empty file a clean run yields the empty store. *)
Theorem initializeDatabase_keeps_data (fault : string -> bool) (f : db_file) :
  let f' := fst (initializeDatabase_run fault f) in
  (forall t, f_consultations f = Some t -> f_consultations f' = Some t) /\
  (forall t, f_customers f = Some t -> f_customers f' = Some t) /\
  (forall t, f_phone_numbers f = Some t -> f_phone_numbers f' = Some t) /\
  (forall t, f_orders f = Some t -> f_orders f' = Some t) /\
  (forall t, f_email_subscribers f = Some t ->
             f_email_subscribers f' = Some t) /\
  is_Some (open_store (fst (initializeDatabase_run no_fault f))) /\
  fst (initializeDatabase_run no_fault f') =
    fst (initializeDatabase_run no_fault f) /\
  length (snd (initializeDatabase_run fault f)) =
    length (List.filter fault table_names) /\
  open_store (fst (initializeDatabase_run no_fault empty_file)) =
    Some initializeDatabase.
Proof.
  cbv zeta. unfold initializeDatabase_run.
  cbn [fst snd f_consultations f_customers f_phone_numbers f_orders
       f_email_subscribers].
  repeat split.
  - intros t ->. apply create_table_keeps.
  - intros t ->. apply create_table_keeps.
  - intros t ->. apply create_table_keeps.
  - intros t ->. apply create_table_keeps.
  - intros t ->. apply create_table_keeps.
  - unfold open_store, no_fault.
    cbn [f_consultations f_customers f_phone_numbers f_orders
         f_email_subscribers].
    destruct (f_consultations f), (f_customers f), (f_phone_numbers f),
      (f_orders f), (f_email_subscribers f); cbn; eauto.
  - unfold no_fault. now rewrite !create_table_again.
  - unfold table_names. cbn [flat_map List.filter].
    destruct (fault "consultations"), (fault "customers"),
      (fault "phone_numbers"), (fault "orders"), (fault "email_subscribers");
      reflexivity.
Qed.

End Properties.

(** * The properties on the sample requests *)

Lemma consultation_submission_stored_witness :
  let r := post_api_consultation simple_isEmail alice_and_bob
             (quiet_env 1000) fresh_world in
  wf_database (w_db fresh_world) /\
  validationResult (consultationValidation simple_isEmail) alice_and_bob = [] /\
  db_fault (quiet_env 1000) = false /\
  exists (id : Z) (row : consultation) (message : string),
    fst r = Response 200 (ConsultationSubmitted message id) /\
    0 < id /\
    Sql.rows (consultations (w_db (snd r))) =
      Sql.rows (consultations (w_db fresh_world)) ++ [row] /\
    Forall (fun r => c_id r < id) (Sql.rows (consultations (w_db fresh_world))) /\
    c_id row = id /\
    alice_and_bob !! "relationshipType" = Some (c_relationship_type row) /\
    alice_and_bob !! "names" = Some (c_names row) /\
    alice_and_bob !! "email" = Some (c_email row) /\
    alice_and_bob !! "phone" = Some (c_phone row) /\
    alice_and_bob !! "budget" = Some (c_budget row) /\
    (alice_and_bob !! "anniversary" = None -> c_anniversary row = None) /\
    (alice_and_bob !! "preferences" = None -> c_preferences row = Some "").
Proof.
  assert (Hwf : wf_database (w_db fresh_world)) by apply initializeDatabase_wf.
  assert (Hv : validationResult (consultationValidation simple_isEmail)
                 alice_and_bob = []) by (vm_compute; reflexivity).
  assert (Hf : db_fault (quiet_env 1000) = false) by reflexivity.
  split; [exact Hwf |]. split; [exact Hv |]. split; [exact Hf |].
  exact (consultation_submission_stored simple_isEmail eq_refl alice_and_bob
           (quiet_env 1000) fresh_world Hwf Hv Hf).
Defined.

Lemma consultation_validation_failure_witness :
  let req_body := <["names" := ""]> (delete "email" alice_and_bob) in
  ((exists f, In f required_fields /\
              (req_body !! f = None \/ req_body !! f = Some "")) \/
   simple_isEmail (Js.toString (req_body !! "email")) = false) /\
  exists errors : list validation_error,
    post_api_consultation simple_isEmail req_body (quiet_env 1000) fresh_world =
      (Response 400 (ValidationErrors errors), fresh_world) /\
    (forall f, In f required_fields ->
               req_body !! f = None \/ req_body !! f = Some "" ->
               In f (map ve_path errors)) /\
    (simple_isEmail (Js.toString (req_body !! "email")) = false ->
     In "email" (map ve_path errors)) /\
    (forall err, In err errors ->
       In (ve_path err) required_fields /\
       (Js.toString (req_body !! ve_path err) = "" \/
        ve_path err = "email" /\
        simple_isEmail (Js.toString (req_body !! "email")) = false)).
Proof.
  intros req_body.
  assert (Hbad : (exists f, In f required_fields /\
                            (req_body !! f = None \/ req_body !! f = Some "")) \/
                 simple_isEmail (Js.toString (req_body !! "email")) = false).
  { left. exists "names".
    split; [simpl; tauto | right; vm_compute; reflexivity]. }
  split; [exact Hbad |].
  exact (consultation_validation_failure simple_isEmail eq_refl req_body
           (quiet_env 1000) fresh_world Hbad).
Defined.

Lemma consultation_insert_failure_witness :
  let r := post_api_consultation simple_isEmail alice_and_bob
             (failing_store_env 1000) fresh_world in
  validationResult (consultationValidation simple_isEmail) alice_and_bob = [] /\
  db_fault (failing_store_env 1000) = true /\
  status (fst r) = 500 /\
  success (fst r) = false /\
  w_db (snd r) = w_db fresh_world /\
  w_outbox (snd r) = w_outbox fresh_world.
Proof.
  assert (Hv : validationResult (consultationValidation simple_isEmail)
                 alice_and_bob = []) by (vm_compute; reflexivity).
  assert (Hf : db_fault (failing_store_env 1000) = true) by reflexivity.
  split; [exact Hv |]. split; [exact Hf |].
  exact (consultation_insert_failure simple_isEmail alice_and_bob
           (failing_store_env 1000) fresh_world Hv Hf).
Defined.

Lemma newsletter_signup_twice_witness :
  let first := post_api_newsletter simple_isEmail newsletter_signup
                 (quiet_env 1000) fresh_world in
  let second := post_api_newsletter simple_isEmail newsletter_signup
                  (quiet_env 2000) (snd first) in
  wf_database (w_db fresh_world) /\
  newsletter_signup !! "email" = Some "a@example.com" /\
  simple_isEmail "a@example.com" = true /\
  db_fault (quiet_env 1000) = false /\
  db_fault (quiet_env 2000) = false /\
  (status (fst first) = 200 /\ success (fst first) = true) /\
  (status (fst second) = 200 /\ success (fst second) = true) /\
  length (List.filter (has_email "a@example.com")
            (Sql.rows (email_subscribers (w_db (snd second))))) = 1%nat /\
  Sql.rows (email_subscribers (w_db (snd second))) =
    Sql.rows (email_subscribers (w_db (snd first))).
Proof.
  assert (Hwf : wf_database (w_db fresh_world)) by apply initializeDatabase_wf.
  assert (Hem : newsletter_signup !! "email" = Some "a@example.com")
    by (vm_compute; reflexivity).
  assert (Hok : simple_isEmail "a@example.com" = true) by reflexivity.
  assert (Hf1 : db_fault (quiet_env 1000) = false) by reflexivity.
  assert (Hf2 : db_fault (quiet_env 2000) = false) by reflexivity.
  do 5 (split; [assumption |]).
  exact (newsletter_signup_twice simple_isEmail newsletter_signup
           newsletter_signup (quiet_env 1000) (quiet_env 2000) fresh_world
           "a@example.com" Hwf Hem Hem Hok Hf1 Hf2).
Defined.

Lemma notification_failure_is_only_logged_witness :
  let e := rejecting_transport_env 1000 in
  let other := fun _ : mailOptions => false in
  let c := post_api_consultation simple_isEmail alice_and_bob e fresh_world in
  let c' := post_api_consultation simple_isEmail alice_and_bob
              (with_smtp_fault e other) fresh_world in
  let n := post_api_newsletter simple_isEmail newsletter_signup e fresh_world in
  let n' := post_api_newsletter simple_isEmail newsletter_signup
              (with_smtp_fault e other) fresh_world in
  validationResult (consultationValidation simple_isEmail) alice_and_bob = [] /\
  validationResult (newsletterValidation simple_isEmail) newsletter_signup = [] /\
  db_fault e = false /\
  (success (fst c) = true /\ fst c' = fst c /\
   w_db (snd c') = w_db (snd c) /\ w_outbox (snd c') = w_outbox (snd c) /\
   length (console_errors (snd c)) =
     (length (console_errors fresh_world) +
      length (List.filter (smtp_fault e)
                (drop (length (w_outbox fresh_world)) (w_outbox (snd c)))))%nat) /\
  (success (fst n) = true /\ fst n' = fst n /\
   w_db (snd n') = w_db (snd n) /\ w_outbox (snd n') = w_outbox (snd n) /\
   length (console_errors (snd n)) =
     (length (console_errors fresh_world) +
      length (List.filter (smtp_fault e)
                (drop (length (w_outbox fresh_world)) (w_outbox (snd n)))))%nat).
Proof.
  intros e other.
  assert (Hc : validationResult (consultationValidation simple_isEmail)
                 alice_and_bob = []) by (vm_compute; reflexivity).
  assert (Hn : validationResult (newsletterValidation simple_isEmail)
                 newsletter_signup = []) by (vm_compute; reflexivity).
  assert (Hf : db_fault e = false) by reflexivity.
  do 3 (split; [assumption |]).
  exact (notification_failure_is_only_logged simple_isEmail eq_refl
           alice_and_bob newsletter_signup e fresh_world other Hc Hn Hf).
Defined.

Lemma newsletter_duplicate_still_welcomes_witness :
  let w := snd (post_api_newsletter simple_isEmail newsletter_signup
                  (quiet_env 1000) fresh_world) in
  let r := post_api_newsletter simple_isEmail newsletter_signup
             (quiet_env 2000) w in
  newsletter_signup !! "email" = Some "a@example.com" /\
  simple_isEmail "a@example.com" = true /\
  db_fault (quiet_env 2000) = false /\
  In "a@example.com" (map s_email (Sql.rows (email_subscribers (w_db w)))) /\
  w_outbox (snd r) =
    w_outbox w ++ [welcome_mailOptions (quiet_env 2000) (Some "a@example.com")] /\
  success (fst r) = true /\
  (In "a@example.com" (map s_email (Sql.rows (email_subscribers (w_db w)))) ->
   Sql.rows (email_subscribers (w_db (snd r))) =
   Sql.rows (email_subscribers (w_db w))).
Proof.
  intros w.
  assert (Hem : newsletter_signup !! "email" = Some "a@example.com")
    by (vm_compute; reflexivity).
  assert (Hok : simple_isEmail "a@example.com" = true) by reflexivity.
  assert (Hf : db_fault (quiet_env 2000) = false) by reflexivity.
  do 3 (split; [assumption |]).
  split; [vm_compute; now left |].
  exact (newsletter_duplicate_still_welcomes simple_isEmail newsletter_signup
           (quiet_env 2000) w "a@example.com" Hem Hok Hf).
Defined.

Lemma consultation_reads_submitted_fields_only_witness :
  let r := post_api_consultation simple_isEmail alice_and_bob_with_extras
             (quiet_env 1000) fresh_world in
  (forall f, In f submitted_fields ->
             alice_and_bob_with_extras !! f = alice_and_bob !! f) /\
  r = post_api_consultation simple_isEmail alice_and_bob
        (quiet_env 1000) fresh_world /\
  (forall row,
     In row (Sql.rows (consultations (w_db (snd r)))) ->
     In row (Sql.rows (consultations (w_db fresh_world))) \/
     (c_status row = Some "pending" /\
      c_id row = Sql.next_rowid c_id (consultations (w_db fresh_world)) /\
      c_created_at row = now (quiet_env 1000) /\
      c_updated_at row = now (quiet_env 1000))).
Proof.
  assert (Hsame : forall f, In f submitted_fields ->
            alice_and_bob_with_extras !! f = alice_and_bob !! f).
  { intros f Hf. simpl in Hf.
    destruct Hf as [<- | [<- | [<- | [<- | [<- | [<- | [<- | []]]]]]]];
      vm_compute; reflexivity. }
  split; [exact Hsame |].
  exact (consultation_reads_submitted_fields_only simple_isEmail eq_refl
           alice_and_bob_with_extras alice_and_bob (quiet_env 1000)
           fresh_world Hsame).
Defined.

Lemma numbers_search_default_witness :
  let r := get_api_numbers_search ∅ (quiet_env 1000) vanity_numbers in
  (∅ : gmap string string) !! "pattern" = None /\
  (∅ : gmap string string) !! "area_code" = None /\
  (∅ : gmap string string) !! "limit" = None /\
  (length (numbers_of (fst r)) <= 10)%nat /\
  Forall (fun r => p_status r = Some "available") (numbers_of (fst r)) /\
  w_db (snd r) = w_db vanity_numbers /\
  (db_fault (quiet_env 1000) = false ->
   fst r =
   Response 200
     (Numbers (take 10 (List.filter
                          (fun r => Sql.text_eq (p_status r) "available")
                          (Sql.rows (phone_numbers (w_db vanity_numbers))))))).
Proof.
  do 3 (split; [reflexivity |]).
  exact (numbers_search_default ∅ (quiet_env 1000) vanity_numbers
           eq_refl eq_refl eq_refl).
Defined.

Lemma numbers_search_area_code_prefix_witness :
  area_code_query "0800f" !! "area_code" = Some "0800f" /\
  ascii_literal "0800f" = true /\
  Forall (fun r => String.prefix (fold_string "0800f")
                                 (fold_string (p_number r)) = true)
         (numbers_of (fst (get_api_numbers_search (area_code_query "0800f")
                             (quiet_env 1000) vanity_numbers))).
Proof.
  assert (Ha : area_code_query "0800f" !! "area_code" = Some "0800f")
    by (vm_compute; reflexivity).
  assert (Hlit : ascii_literal "0800f" = true) by reflexivity.
  do 2 (split; [assumption |]).
  exact (numbers_search_area_code_prefix (area_code_query "0800f")
           (quiet_env 1000) vanity_numbers "0800f" Ha Hlit).
Defined.

Lemma same_second_world_wf : wf_database (w_db same_second_world).
Proof.
  unfold same_second_world.
  apply (post_api_consultation_wf simple_isEmail eq_refl).
  apply (post_api_consultation_wf simple_isEmail eq_refl).
  apply initializeDatabase_wf.
Qed.

Lemma admin_listing_first_page_witness :
  let w := same_second_world in
  let e := quiet_env 3000 in
  first_page !! "status" = None /\
  first_page !! "limit" = Some "1" /\
  first_page !! "offset" = Some "0" /\
  db_fault e = false /\
  (1 < length (Sql.rows (consultations (w_db w))))%nat /\
  exists r : consultation,
    fst (get_api_admin_consultations first_page e w) =
      Response 200 (Consultations [r]) /\
    In r (Sql.rows (consultations (w_db w))) /\
    (forall r', In r' (Sql.rows (consultations (w_db w))) ->
                c_created_at r' <= c_created_at r) /\
    (forall earlier newest,
       Sql.rows (consultations (w_db w)) = earlier ++ [newest] ->
       Forall (fun r' => c_created_at r' < c_created_at newest) earlier ->
       r = newest).
Proof.
  intros w e.
  assert (Hs : first_page !! "status" = None) by (vm_compute; reflexivity).
  assert (Hl : first_page !! "limit" = Some "1") by (vm_compute; reflexivity).
  assert (Ho : first_page !! "offset" = Some "0") by (vm_compute; reflexivity).
  assert (Hf : db_fault e = false) by reflexivity.
  assert (Hmany : (1 < length (Sql.rows (consultations (w_db w))))%nat)
    by (vm_compute; lia).
  do 5 (split; [assumption |]).
  exact (admin_listing_first_page first_page e w Hs Hl Ho Hf Hmany).
Defined.

(** C6 as stated fails: of two consultations stored within the same clock
    second, the listing with limit=1 and offset=0 returns the one submitted
    first, not the most recently created one. *)
Lemma admin_listing_same_second_counterexample :
  ~ (forall (w : world) (e : env) (req_query : gmap string string),
       wf_database (w_db w) ->
       db_fault e = false ->
       req_query !! "status" = None ->
       req_query !! "limit" = Some "1" ->
       req_query !! "offset" = Some "0" ->
       (1 < length (Sql.rows (consultations (w_db w))))%nat ->
       exists r : consultation,
         fst (get_api_admin_consultations req_query e w) =
           Response 200 (Consultations [r]) /\
         last (Sql.rows (consultations (w_db w))) = Some r).
Proof.
  intros Hclaim.
  destruct (Hclaim same_second_world (quiet_env 3000) first_page)
    as (r & Hresp & Hlast).
  - apply same_second_world_wf.
  - reflexivity.
  - vm_compute; reflexivity.
  - vm_compute; reflexivity.
  - vm_compute; reflexivity.
  - vm_compute; lia.
  - vm_compute in Hresp, Hlast.
    injection Hresp as <-. discriminate Hlast.
Qed.

(** What the listing answers in that store: the row with rowid 1, while the
    row created last has rowid 2. *)
Example admin_listing_same_second :
  fst (get_api_admin_consultations first_page (quiet_env 3000) same_second_world) =
    Response 200
      (Consultations
         [submitted_row 1 "couple" "Alice & Bob" "a@example.com" "555-0100"
                        alice_and_bob "premium" 1000]) /\
  last (Sql.rows (consultations (w_db same_second_world))) =
    Some (submitted_row 2 "friends" "Carol & Dan" "c@example.com" "555-0101"
                        carol_and_dan "basic" 1000).
Proof. split; vm_compute; reflexivity. Qed.

(** C8 as stated fails: LIKE compares letters without regard to ASCII
    case, so the filter [0800f] returns the number [0800FLOWERS], which
    does not start with [0800f]. *)
Lemma numbers_search_prefix_counterexample :
  ~ (forall (w : world) (e : env) (req_query : gmap string string)
            (area_code : string),
       req_query !! "area_code" = Some area_code ->
       Forall (fun r => String.prefix area_code (p_number r) = true)
              (numbers_of (fst (get_api_numbers_search req_query e w)))).
Proof.
  intros Hclaim.
  specialize (Hclaim vanity_numbers (quiet_env 1000) (area_code_query "0800f")
                "0800f" ltac:(vm_compute; reflexivity)).
  vm_compute in Hclaim.
  inversion Hclaim as [| ? ? Hprefix _]. discriminate Hprefix.
Qed.

(** The filter text is handed to LIKE as it is, so its [%] and [_] act as
    wildcards: [_7] returns a number that starts with [07]. *)
Example numbers_search_wildcard :
  numbers_of (fst (get_api_numbers_search (area_code_query "_7")
                     (quiet_env 1000) vanity_numbers)) =
    [sample_number 1 "07123456789"] /\
  String.prefix "_7" "07123456789" = false.
Proof. split; vm_compute; reflexivity. Qed.

(** The scenario of the specification: the first submission of a complete
    form is answered with identifier 1 and stored with status 'pending'. *)
Example first_submission :
  let r := post_api_consultation simple_isEmail alice_and_bob
             (quiet_env 1000) fresh_world in
  fst r = Response 200
            (ConsultationSubmitted
               "Consultation request submitted successfully" 1) /\
  c_status <$> Sql.rows (consultations (w_db (snd r))) = [Some "pending"].
Proof. split; vm_compute; reflexivity. Qed.

(** * The further properties on the sample requests *)

Lemma unsuccessful_request_changes_nothing_witness :
  let rq := PostConsultation (delete "phone" carol_and_dan) in
  let served := serve simple_isEmail rq (quiet_env 1000) same_second_world in
  simple_isEmail "" = false /\
  success (fst served) = false /\
  w_db (snd served) = w_db same_second_world /\
  w_outbox (snd served) = w_outbox same_second_world.
Proof.
  intros rq served.
  assert (Hfail : success (fst served) = false) by (vm_compute; reflexivity).
  split; [reflexivity |]. split; [exact Hfail |].
  exact (unsuccessful_request_changes_nothing simple_isEmail eq_refl rq
           (quiet_env 1000) same_second_world Hfail).
Defined.

Lemma store_failure_is_answered_500_witness :
  let rq := GetAdminConsultations first_page in
  let served := serve simple_isEmail rq (failing_store_env 1000)
                  same_second_world in
  db_fault (failing_store_env 1000) = true /\
  status (fst served) <> 400 /\
  fst served = Response 500 (Failure "Database error") /\
  w_db (snd served) = w_db same_second_world /\
  w_outbox (snd served) = w_outbox same_second_world /\
  exists text,
    w_console (snd served) =
    w_console same_second_world ++ [ConsoleError text].
Proof.
  intros rq served.
  assert (Hf : db_fault (failing_store_env 1000) = true) by reflexivity.
  assert (Hv : status (fst served) <> 400) by (vm_compute; discriminate).
  split; [exact Hf |]. split; [exact Hv |].
  exact (store_failure_is_answered_500 simple_isEmail rq
           (failing_store_env 1000) same_second_world Hf Hv).
Defined.

Lemma served_store_keeps_schema_witness :
  let w' := snd (serve_all simple_isEmail sample_traffic fresh_world) in
  simple_isEmail "" = false /\
  wf_database (w_db fresh_world) /\
  wf_database (w_db w') /\
  NoDup (map c_id (Sql.rows (consultations (w_db w')))) /\
  NoDup (map s_email (Sql.rows (email_subscribers (w_db w')))).
Proof.
  assert (Hwf : wf_database (w_db fresh_world)) by apply initializeDatabase_wf.
  split; [reflexivity |]. split; [exact Hwf |].
  exact (served_store_keeps_schema simple_isEmail eq_refl sample_traffic
           fresh_world Hwf).
Defined.

Lemma served_store_only_grows_witness :
  let w := same_second_world in
  let w' := snd (serve_all simple_isEmail sample_traffic w) in
  simple_isEmail "" = false /\
  Sql.rows (consultations (w_db w)) `prefix_of`
    Sql.rows (consultations (w_db w')) /\
  Sql.rows (email_subscribers (w_db w)) `prefix_of`
    Sql.rows (email_subscribers (w_db w')) /\
  customers (w_db w') = customers (w_db w) /\
  phone_numbers (w_db w') = phone_numbers (w_db w) /\
  orders (w_db w') = orders (w_db w).
Proof.
  split; [reflexivity |].
  exact (served_store_only_grows simple_isEmail eq_refl sample_traffic
           same_second_world).
Defined.

Lemma consultation_ids_increase_witness :
  let first := post_api_consultation simple_isEmail alice_and_bob
                 (quiet_env 1000) fresh_world in
  let later := serve_all simple_isEmail sample_traffic (snd first) in
  let second := post_api_consultation simple_isEmail carol_and_dan
                  (quiet_env 2000) (snd later) in
  simple_isEmail "" = false /\
  submitted_id (fst first) = Some 1 /\
  submitted_id (fst second) = Some 4 /\
  1 < 4.
Proof.
  intros first later second.
  assert (H1 : submitted_id (fst first) = Some 1) by (vm_compute; reflexivity).
  assert (H2 : submitted_id (fst second) = Some 4) by (vm_compute; reflexivity).
  split; [reflexivity |]. split; [exact H1 |]. split; [exact H2 |].
  exact (consultation_ids_increase simple_isEmail eq_refl alice_and_bob
           carol_and_dan (quiet_env 1000) (quiet_env 2000) sample_traffic
           fresh_world 1 4 H1 H2).
Defined.

Lemma consultation_rows_match_answers_witness :
  let served := serve_all simple_isEmail sample_traffic fresh_world in
  simple_isEmail "" = false /\
  length (Sql.rows (consultations (w_db (snd served)))) =
  (length (Sql.rows (consultations (w_db fresh_world))) +
   length (List.filter is_submitted (fst served)))%nat.
Proof.
  split; [reflexivity |].
  exact (consultation_rows_match_answers simple_isEmail eq_refl sample_traffic
           fresh_world).
Defined.

Lemma mails_match_answers_witness :
  let served := serve_all simple_isEmail sample_traffic fresh_world in
  simple_isEmail "" = false /\
  length (w_outbox (snd served)) =
  (length (w_outbox fresh_world) +
   2 * length (List.filter is_submitted (fst served)) +
   length (List.filter is_subscribed (fst served)))%nat.
Proof.
  split; [reflexivity |].
  exact (mails_match_answers simple_isEmail eq_refl sample_traffic fresh_world).
Defined.

Lemma consultation_mails_witness :
  let e := rejecting_transport_env 1000 in
  let r := post_api_consultation simple_isEmail alice_and_bob e fresh_world in
  simple_isEmail "" = false /\
  validationResult (consultationValidation simple_isEmail) alice_and_bob = [] /\
  db_fault e = false /\
  exists id : Z,
    submitted_id (fst r) = Some id /\
    w_outbox (snd r) =
      w_outbox fresh_world ++
      [MailOptions (from_address e) (alice_and_bob !! "email")
                   (ConfirmationTemplate (alice_and_bob !! "names") id);
       MailOptions (from_address e) (admin_address e)
                   (AdminAlertTemplate (alert_data id alice_and_bob))] /\
    (forall a, SMTP_FROM (process_env_of e) = Some a -> a <> "" ->
               from_address e = a) /\
    (SMTP_FROM (process_env_of e) = None \/
     SMTP_FROM (process_env_of e) = Some "" ->
     from_address e = "hello@connectpair.co.uk") /\
    (forall a, ADMIN_EMAIL (process_env_of e) = Some a -> a <> "" ->
               admin_address e = Some a) /\
    (ADMIN_EMAIL (process_env_of e) = None \/
     ADMIN_EMAIL (process_env_of e) = Some "" ->
     admin_address e = Some "admin@connectpair.co.uk").
Proof.
  intros e.
  assert (Hv : validationResult (consultationValidation simple_isEmail)
                 alice_and_bob = []) by (vm_compute; reflexivity).
  assert (Hf : db_fault e = false) by reflexivity.
  split; [reflexivity |]. split; [exact Hv |]. split; [exact Hf |].
  exact (consultation_mails simple_isEmail eq_refl alice_and_bob e
           fresh_world Hv Hf).
Defined.

Lemma consultation_optional_fields_witness :
  let req_body := <["anniversary" := "2020-05-17"]> alice_and_bob in
  let r := post_api_consultation simple_isEmail req_body
             (quiet_env 1000) fresh_world in
  simple_isEmail "" = false /\
  validationResult (consultationValidation simple_isEmail) req_body = [] /\
  db_fault (quiet_env 1000) = false /\
  exists row : consultation,
    Sql.rows (consultations (w_db (snd r))) =
      Sql.rows (consultations (w_db fresh_world)) ++ [row] /\
    (forall a, req_body !! "anniversary" = Some a -> a <> "" ->
               Sql.looks_numeric a = false ->
               c_anniversary row = Some (Sql.Text a)) /\
    (forall a, req_body !! "anniversary" = Some a -> a <> "" ->
               Sql.looks_numeric a = true ->
               c_anniversary row = Some (Sql.Numeric a)) /\
    (req_body !! "anniversary" = Some "" -> c_anniversary row = None) /\
    (req_body !! "anniversary" = None -> c_anniversary row = None) /\
    c_preferences row = Some (Js.toString (req_body !! "preferences")).
Proof.
  intros req_body.
  assert (Hv : validationResult (consultationValidation simple_isEmail)
                 req_body = []) by (vm_compute; reflexivity).
  assert (Hf : db_fault (quiet_env 1000) = false) by reflexivity.
  split; [reflexivity |]. split; [exact Hv |]. split; [exact Hf |].
  exact (consultation_optional_fields simple_isEmail eq_refl req_body
           (quiet_env 1000) fresh_world Hv Hf).
Defined.

Lemma numbers_search_filters_witness :
  let r := sample_number 1 "07123456789" in
  In r (numbers_of (fst (get_api_numbers_search (area_code_query "07")
                           (quiet_env 1000) vanity_numbers))) /\
  In r (Sql.rows (phone_numbers (w_db vanity_numbers))) /\
  p_status r = Some "available" /\
  (forall pattern, area_code_query "07" !! "pattern" = Some pattern ->
                   pattern <> "" -> p_pattern_type r = Some pattern).
Proof.
  intros r.
  assert (Hin : In r (numbers_of (fst (get_api_numbers_search
                                         (area_code_query "07")
                                         (quiet_env 1000) vanity_numbers))))
    by (vm_compute; now left).
  split; [exact Hin |].
  exact (numbers_search_filters (area_code_query "07") (quiet_env 1000)
           vanity_numbers r Hin).
Defined.

Lemma admin_listing_pages_compose_witness :
  let e := quiet_env 3000 in
  let w := same_second_world in
  Js.parseInt "1" = Js.Num 1 /\
  Js.parseInt "1" = Js.Num 1 /\
  Js.parseInt "2" = Js.Num (1 + 1) /\
  Js.parseInt "0" = Js.Num 0 /\
  Js.parseInt "1" = Js.Num (0 + 1) /\
  0 <= 1 /\ 0 <= 1 /\ 0 <= 0 /\
  1 + 1 < 9223372036854775808 /\
  0 + 1 < 9223372036854775808 /\
  db_fault e = false /\
  consultations_of
    (fst (get_api_admin_consultations (page_query ∅ "1" "0") e w)) ++
  consultations_of
    (fst (get_api_admin_consultations (page_query ∅ "1" "1") e w)) =
  consultations_of
    (fst (get_api_admin_consultations (page_query ∅ "2" "0") e w)).
Proof.
  intros e w.
  do 5 (split; [reflexivity |]). do 5 (split; [lia |]).
  split; [reflexivity |].
  exact (admin_listing_pages_compose ∅ "1" "1" "2" "0" "1" 1 1 0 e w
           eq_refl eq_refl eq_refl eq_refl eq_refl
           ltac:(lia) ltac:(lia) ltac:(lia) ltac:(lia) ltac:(lia) eq_refl).
Defined.

Lemma newsletter_validation_failure_witness :
  let req_body : gmap string string := <["email" := "not an address"]> ∅ in
  simple_isEmail "" = false /\
  (req_body !! "email" = None \/
   simple_isEmail (Js.toString (req_body !! "email")) = false) /\
  post_api_newsletter simple_isEmail req_body (quiet_env 1000) fresh_world =
  (Response 400
     (ValidationErrors
        [ValidationError (req_body !! "email") "Valid email is required"
                         "email" "body"]), fresh_world).
Proof.
  intros req_body.
  assert (Hbad : req_body !! "email" = None \/
                 simple_isEmail (Js.toString (req_body !! "email")) = false)
    by (right; vm_compute; reflexivity).
  split; [reflexivity |]. split; [exact Hbad |].
  exact (newsletter_validation_failure simple_isEmail eq_refl req_body
           (quiet_env 1000) fresh_world Hbad).
Defined.


Lemma newsletter_reads_email_and_source_only_witness :
  let req_body : gmap string string :=
    <["status" := "vip"]> (<["id" := "7"]> newsletter_signup) in
  req_body !! "email" = newsletter_signup !! "email" /\
  req_body !! "source" = newsletter_signup !! "source" /\
  post_api_newsletter simple_isEmail req_body (quiet_env 1000) fresh_world =
  post_api_newsletter simple_isEmail newsletter_signup (quiet_env 1000)
    fresh_world.
Proof.
  intros req_body.
  assert (Hemail : req_body !! "email" = newsletter_signup !! "email")
    by (vm_compute; reflexivity).
  assert (Hsource : req_body !! "source" = newsletter_signup !! "source")
    by (vm_compute; reflexivity).
  do 2 (split; [assumption |]).
  exact (newsletter_reads_email_and_source_only simple_isEmail req_body
           newsletter_signup (quiet_env 1000) fresh_world Hemail Hsource).
Defined.

(** A start-up during which the statement for [orders] fails leaves the
    stored consultations alone and the store incomplete; the next clean
    start-up completes it. *)
Example startup_after_failed_statement :
  let f := fst (initializeDatabase_run orders_fault used_file) in
  f_consultations f = f_consultations used_file /\
  snd (initializeDatabase_run orders_fault used_file) =
    [ConsoleError "Error creating table:"] /\
  open_store f = None /\
  (consultations <$> open_store (fst (initializeDatabase_run no_fault f))) =
    f_consultations used_file.
Proof. repeat split; vm_compute; reflexivity. Qed.

(** LIKE reads the filter up to its first NUL: [07<NUL>zz] loses the
    appended [%] and returns the number [07], which does not start with
    the filter. *)
Example numbers_search_nul_filter :
  numbers_of (fst (get_api_numbers_search (area_code_query nul_filter)
                     (quiet_env 1000)
                     (numbers_world [sample_number 1 "07";
                                     sample_number 2 "07123"]))) =
    [sample_number 1 "07"] /\
  String.prefix (fold_string nul_filter) (fold_string "07") = false.
Proof. split; vm_compute; reflexivity. Qed.

(** LIKE compares characters beyond ASCII after decoding them: the filter
    e-acute returns a stored number that spells the letter in three
    bytes. *)
Example numbers_search_non_ascii_filter :
  numbers_of (fst (get_api_numbers_search (area_code_query e_acute)
                     (quiet_env 1000)
                     (numbers_world [sample_number 1 (long_e_acute +:+ "1")]))) =
    [sample_number 1 (long_e_acute +:+ "1")] /\
  String.prefix (fold_string e_acute)
                (fold_string (long_e_acute +:+ "1")) = false.
Proof. split; vm_compute; reflexivity. Qed.

(** An anniversary that is a well-formed number is stored as a number. *)
Example anniversary_stored_as_number :
  c_anniversary <$>
    Sql.rows (consultations
                (w_db (snd (post_api_consultation simple_isEmail
                              (<["anniversary" := "007"]> alice_and_bob)
                              (quiet_env 1000) fresh_world)))) =
  [Some (Sql.Numeric "007")].
Proof. vm_compute; reflexivity. Qed.

(** A limit of 2^62 is taken; 2^63 - 1 is the double 2^63 once parsed,
    which the engine rejects; so is a limit that is no number. *)
Example admin_listing_limit_range :
  status (fst (get_api_admin_consultations
                 (page_query ∅ "4611686018427387904" "0")
                 (quiet_env 3000) same_second_world)) = 200 /\
  Js.parseInt "9223372036854775807" = Js.Num 9223372036854775808 /\
  fst (get_api_admin_consultations
         (page_query ∅ "9223372036854775807" "0")
         (quiet_env 3000) same_second_world) =
    Response 500 (Failure "Database error") /\
  fst (get_api_admin_consultations (page_query ∅ "ten" "0")
         (quiet_env 3000) same_second_world) =
    Response 500 (Failure "Database error").
Proof. repeat split; vm_compute; reflexivity. Qed.
